(** * The incremental-test runner of pyre-check, embedded and verified

    Source: [scripts/pyre_incremental_test/runner.py].

    The runner drives an external type checker: it starts a server in a
    sandbox, applies a list of repository updates while polling the server's
    profiling endpoint, asks for the incremental errors, stops the server,
    runs a full check and compares the two error lists.

    The embedding has three layers:
    - [Py]: the Python values the runner manipulates (decoded JSON, the
      built-ins [int], [==] and [str.rstrip], subscripts, iteration) and
      its exceptions;
    - [Effects]: the outside world (the checker process, the sandbox, the
      clock) as a trace of events and a state-and-error monad over it;
    - [Runner]: the definitions of [runner.py], function by function. *)

From Stdlib Require Import ZArith String Ascii List Bool Lia.
From stdpp Require Import base option list strings gmap fin_maps.

Import ListNotations.
Local Open Scope string_scope.
Local Open Scope list_scope.
Local Open Scope Z_scope.
Local Set Warnings "-register-all".

(** ** Python values *)

Module Py.

(** A Python [float]. Only what [int()] and [==] need is represented: the
    value [mantissa * 2^exponent] of a finite float, the two infinities and
    NaN. *)
Inductive pyfloat :=
| FFinite (mantissa exponent : Z)
| FInf (negative : bool)
| FNan.

(** The values [json.loads] produces: [None], [bool], [int], [float], [str],
    [list] and [dict] with [str] keys. The key order of a [dict] is not
    represented. *)
Inductive json :=
| JNull
| JBool (b : bool)
| JInt (z : Z)
| JFloat (f : pyfloat)
| JString (s : string)
| JArray (xs : list json)
| JObject (d : gmap string json).

(** The exceptions the runner can see. [ProcessError] is the fatal error of
    the process gateway; [MalformedPyreOutputException] is declared in
    [runner.py] and carries its message. *)
Inductive exn :=
| KeyError (key : string)
| ValueError
| TypeError
| OverflowError
| JSONDecodeError
| ProcessError (return_code : Z)
| MalformedPyreOutputException (message : string).

(** The outcome of evaluating an expression: a value or a raised
    exception. *)
Inductive result (A : Type) :=
| Ok (a : A)
| Raise (e : exn).
Arguments Ok {A} a.
Arguments Raise {A} e.

Definition result_bind {A B} (r : result A) (f : A -> result B) : result B :=
  match r with
  | Ok a => f a
  | Raise e => Raise e
  end.

(** *** Numbers and [==]

    [bool], [int] and [float] compare by numeric value, whatever their type
    ([True == 1], [1 == 1.0]); the comparison of an [int] with a [float] is
    exact. *)

Definition dyadic_eqb (m e m' e' : Z) : bool :=
  let k := Z.min e e' in
  (m * 2 ^ (e - k) =? m' * 2 ^ (e' - k))%Z.

Definition float_eqb (f g : pyfloat) : bool :=
  match f, g with
  | FFinite m e, FFinite m' e' => dyadic_eqb m e m' e'
  | FInf s, FInf s' => Bool.eqb s s'
  | FNan, FNan => true
  | _, _ => false
  end.

Definition as_number (v : json) : option pyfloat :=
  match v with
  | JBool b => Some (FFinite (if b then 1 else 0) 0)
  | JInt z => Some (FFinite z 0)
  | JFloat f => Some f
  | _ => None
  end.

(** [a == b] on decoded JSON, as evaluated inside a [list] or [tuple]
    comparison (which tries identity first: the one NaN object that
    [json.loads] hands out for every [NaN] literal is equal to itself
    there). Lists compare element by element, dicts by key set and values. *)
Fixpoint py_eq (a b : json) : bool :=
  match a, b with
  | JNull, JNull => true
  | JString s, JString t => bool_decide (s = t)
  | JArray xs, JArray ys =>
      (fix go (xs ys : list json) : bool :=
         match xs, ys with
         | [], [] => true
         | x :: xs', y :: ys' => py_eq x y && go xs' ys'
         | _, _ => false
         end) xs ys
  | JObject d, JObject d' =>
      bool_decide (size d = size d')
      && map_fold (fun k v acc =>
                     acc && match d' !! k with
                            | Some v' => py_eq v v'
                            | None => false
                            end) true d
  | _, _ =>
      match as_number a, as_number b with
      | Some f, Some g => float_eqb f g
      | _, _ => false
      end
  end.

(** *** Strings

    A [str] is modelled by its bytes; the functions below follow Python on
    ASCII text. *)

(** [c.isspace()] for an ASCII character: TAB, LF, VT, FF, CR, the four
    separators 0x1c..0x1f and the blank. *)
Definition is_space (c : ascii) : bool :=
  let n := Z.of_N (N_of_ascii c) in
  ((9 <=? n) && (n <=? 13)) || ((28 <=? n) && (n <=? 32)).

(** [s.rstrip()] *)
Fixpoint rstrip (s : string) : string :=
  match s with
  | EmptyString => EmptyString
  | String c r =>
      match rstrip r with
      | EmptyString => if is_space c then EmptyString else String c EmptyString
      | r' => String c r'
      end
  end.

(** The blanks [int()] skips around the literal of an ASCII [str]: TAB,
    LF, VT, FF, CR and the blank (C's [isspace]; the separators 0x1c..0x1f,
    which [str.rstrip] removes, are not among them). *)
Definition is_c_space (c : ascii) : bool :=
  let n := Z.of_N (N_of_ascii c) in
  ((9 <=? n) && (n <=? 13)) || (n =? 32).

(** The string without the blanks [int()] skips at its start. *)
Fixpoint skip_blanks (s : string) : string :=
  match s with
  | EmptyString => EmptyString
  | String c r => if is_c_space c then skip_blanks r else s
  end.

(** The string without the blanks [int()] skips at its end. *)
Fixpoint drop_trailing_blanks (s : string) : string :=
  match s with
  | EmptyString => EmptyString
  | String c r =>
      match drop_trailing_blanks r with
      | EmptyString => if is_c_space c then EmptyString else String c EmptyString
      | r' => String c r'
      end
  end.

Definition digit_value (c : ascii) : option Z :=
  let n := Z.of_N (N_of_ascii c) in
  if (48 <=? n) && (n <=? 57) then Some (n - 48) else None.

(** The digits of a decimal literal: a digit first, then digits, each
    optionally preceded by one underscore. [after_digit] tells whether the
    previous character was a digit; the result is the value and the number
    of digits read. *)
Fixpoint digits (acc count : Z) (after_digit : bool) (s : string) : option (Z * Z) :=
  match s with
  | EmptyString => if after_digit then Some (acc, count) else None
  | String c r =>
      match digit_value c with
      | Some d => digits (10 * acc + d) (count + 1) true r
      | None =>
          if Ascii.eqb c "_"%char && after_digit then digits acc count false r
          else None
      end
  end.

(** The longest literal [int()] converts, in digits: the default of
    [sys.get_int_max_str_digits()]. *)
Definition int_max_str_digits : Z := 4300.

(** [int(s)] for a [str]: the blanks around the literal are skipped, one
    sign is allowed, the rest is a decimal literal of at most
    [int_max_str_digits] digits. *)
Definition int_of_str (s : string) : result Z :=
  let body := drop_trailing_blanks (skip_blanks s) in
  let parsed :=
    match body with
    | String "-"%char r => prod_map Z.opp id <$> digits 0 0 false r
    | String "+"%char r => digits 0 0 false r
    | _ => digits 0 0 false body
    end in
  match parsed with
  | Some (z, count) =>
      if int_max_str_digits <? count then Raise ValueError else Ok z
  | None => Raise ValueError
  end.

(** [int(f)] for a [float]: truncation toward zero. *)
Definition int_of_float (f : pyfloat) : result Z :=
  match f with
  | FFinite m e => Ok (if 0 <=? e then m * 2 ^ e else Z.quot m (2 ^ (- e)))
  | FInf _ => Raise OverflowError
  | FNan => Raise ValueError
  end.

(** [int(v)] *)
Definition py_int (v : json) : result Z :=
  match v with
  | JBool b => Ok (if b then 1 else 0)
  | JInt z => Ok z
  | JFloat f => int_of_float f
  | JString s => int_of_str s
  | JNull | JArray _ | JObject _ => Raise TypeError
  end.

(** [v[key]] with a [str] key: a lookup in a [dict], a [TypeError] on every
    other JSON value. *)
Definition subscript (v : json) (key : string) : result json :=
  match v with
  | JObject d =>
      match d !! key with
      | Some x => Ok x
      | None => Raise (KeyError key)
      end
  | _ => Raise TypeError
  end.

(** The elements [for x in v] visits: the items of a [list], the characters
    of a [str], the keys of a [dict]; other values are not iterable. *)
Definition py_iter (v : json) : result (list json) :=
  match v with
  | JArray xs => Ok xs
  | JString s => Ok ((fun c => JString (String c EmptyString)) <$> list_ascii_of_string s)
  | JObject d => Ok (JString <$> (map_to_list d).*1)
  | JNull | JBool _ | JInt _ | JFloat _ => Raise TypeError
  end.

(** [[f(x) for x in xs]]: left to right, the first exception ends it. *)
Fixpoint comprehension {A B} (f : A -> result B) (xs : list A) : result (list B) :=
  match xs with
  | [] => Ok []
  | x :: r =>
      result_bind (f x) (fun y =>
      result_bind (comprehension f r) (fun ys => Ok (y :: ys)))
  end.

(** Truth value of an optional [str]: [None] and the empty string are
    false. *)
Definition truthy (o : option string) : bool :=
  match o with
  | Some (String _ _) => true
  | _ => false
  end.

(** [str(KeyError(key))], which is [repr(key)], for a key made of letters. *)
Definition str_of_KeyError (key : string) : string :=
  ("'" ++ key ++ "'")%string.

End Py.

Import Py.

#[global] Instance result_ret : MRet result := fun _ a => Ok a.
#[global] Instance result_mbind : MBind result := fun _ _ f r => result_bind r f.

(** ** The data classes of [runner.py] *)

Module PyreError.

(** [@dataclass class PyreError]. [line] and [column] go through [int()];
    [path] and [description] are stored as found in the decoded JSON (the
    annotation says [str], nothing checks it). *)
Record t := make {
  line : Z;
  column : Z;
  path : json;
  description : json;
}.

(** The fields have the types the class declares for them. *)
Definition well_typed (e : t) : Prop :=
  (exists s, path e = JString s) /\ (exists s, description e = JString s).

(** The text of a [MalformedPyreOutputException]. *)
Definition missing_key_message (key : string) : string :=
  ("Cannot interpret pyre output: missing key '" ++ str_of_KeyError key ++ "'")%string.

Definition from_json (input_json : json) : result t :=
  let attempt : result t :=
    line_value ← subscript input_json "line";
    line ← py_int line_value;
    column_value ← subscript input_json "column";
    column ← py_int column_value;
    path ← subscript input_json "path";
    description ← subscript input_json "description";
    mret (make line column path description) in
  match attempt with
  | Raise (KeyError key) =>
      Raise (MalformedPyreOutputException (missing_key_message key))
  | outcome => outcome
  end.

(** The [__eq__] that [@dataclass] generates: the tuples of fields are
    compared. *)
Definition eq (a b : t) : bool :=
  (line a =? line b) && (column a =? column b)
  && py_eq (path a) (path b) && py_eq (description a) (description b).

(** [dataclasses.asdict] *)
Definition asdict (e : t) : json :=
  JObject (<["line" := JInt (line e)]>
          (<["column" := JInt (column e)]>
          (<["path" := path e]>
          (<["description" := description e]> ∅)))).

End PyreError.

(** [a == b] for two lists of [PyreError]. *)
Fixpoint errors_eq (a b : list PyreError.t) : bool :=
  match a, b with
  | [], [] => true
  | x :: a', y :: b' => PyreError.eq x y && errors_eq a' b'
  | _, _ => false
  end.

Module InconsistentOutput.

Record t := make {
  full_check_output : list PyreError.t;
  incremental_check_output : list PyreError.t;
}.

Definition to_json (self : t) : gmap string json :=
  <["full_check_output" := JArray (PyreError.asdict <$> full_check_output self)]>
  (<["incremental_check_output" :=
       JArray (PyreError.asdict <$> incremental_check_output self)]> ∅).

End InconsistentOutput.

(** A profiling record, [Mapping[str, int]]. *)
Abbreviation ProfileRecord := (gmap string Z).

Definition record_to_json (log : ProfileRecord) : json := JObject (JInt <$> log).

Module ProfileLogs.

Record t := make {
  incremental_update_logs : list ProfileRecord;
  cold_start_log : ProfileRecord;
}.

Definition to_json (self : t) : gmap string json :=
  <["incremental_update_logs" :=
      JArray (record_to_json <$> incremental_update_logs self)]>
  (<["cold_start_log" := record_to_json (cold_start_log self)]> ∅).

(** [sum(...)] over the generator [log["total"] for log in logs]: the
    running total starts at 0 and the records are read one by one. *)
Fixpoint sum_totals (acc : Z) (logs : list ProfileRecord) : result Z :=
  match logs with
  | [] => Ok acc
  | log :: rest =>
      match log !! "total" with
      | Some total => sum_totals (acc + total) rest
      | None => Raise (KeyError "total")
      end
  end.

Definition total_of_totals (self : t) : result Z :=
  sum_totals 0 (incremental_update_logs self).

End ProfileLogs.

Module ResultComparison.

Record t := make {
  discrepancy : option InconsistentOutput.t;
  full_check_time : Z;
  profile_logs : ProfileLogs.t;
}.

Definition to_json (self : t) (dont_show_discrepancy : bool)
  : result (gmap string json) :=
  incremental_check_time ← ProfileLogs.total_of_totals (profile_logs self);
  let result : gmap string json :=
    <["full_check_time" := JInt (full_check_time self)]>
    (<["incremental_check_time" := JInt incremental_check_time]>
    (<["profile_logs" := JObject (ProfileLogs.to_json (profile_logs self))]> ∅)) in
  let discrepancy := discrepancy self in
  if dont_show_discrepancy then mret result
  else
    mret (<["discrepancy" :=
              match discrepancy with
              | None => JString "none"
              | Some d => JObject (InconsistentOutput.to_json d)
              end]> result).

End ResultComparison.

(** ** The outside world

    The runner talks to a checker process through the gateway
    [Environment.checked_run], sleeps, reads the clock, and runs inside a
    sandbox that a context manager opens and closes. A run is recorded as
    the list of these events, oldest first. *)

Module Effects.

Definition Path := string.

(** What the gateway returns for a command. *)
Record CommandOutput := {
  return_code : Z;
  stdout : string;
}.

(** The kinds [run_profile] is declared (by [@overload]) to accept, and the
    result type declared for each. *)
Inductive OutputKind := incremental_updates | cold_start_phases.

Definition kind_name (kind : OutputKind) : string :=
  match kind with
  | incremental_updates => "incremental_updates"
  | cold_start_phases => "cold_start_phases"
  end.

Definition ProfileOutput (kind : OutputKind) : Type :=
  match kind with
  | incremental_updates => list ProfileRecord
  | cold_start_phases => ProfileRecord
  end.

Inductive Event :=
| SandboxEnter (root : Path)
| SandboxExit (root : Path)
| Run (working_directory : Path) (command : string)
      (expected_return_codes : list Z) (output : CommandOutput)
| ApplyUpdate (step : string) (working_directory : Path)
| Sleep (seconds : Z)
| Time (now : pyfloat).

(** Everything [runner.py] calls without defining it. The process, the
    sandbox and the clock answer as a function of what has happened so far;
    [json.loads] is a function of its text, taken at type [Any] for the
    error arrays and at the declared result type for the profiles;
    [elapsed_ms start stop] stands for the float arithmetic
    [int((stop - start) * 1000)]. *)
Record Host := {
  process : list Event -> Path -> string -> CommandOutput;
  sandbox : list Event -> Path;
  clock : list Event -> pyfloat;
  json_loads : string -> result json;
  json_loads_profile : forall kind : OutputKind, string -> result (ProfileOutput kind);
  elapsed_ms : pyfloat -> pyfloat -> Z;
}.

(** How a computation ends: with a value, with an exception, or not at all
    (the polling loop of [update] ran out of the iterations it was given). *)
Inductive outcome (A : Type) :=
| Returns (a : A)
| Raises (e : exn)
| Hangs.
Arguments Returns {A} a.
Arguments Raises {A} e.
Arguments Hangs {A}.

(** A computation extends the trace and ends with an outcome. *)
Definition M (A : Type) : Type := list Event -> outcome A * list Event.

Definition ret {A} (a : A) : M A := fun tr => (Returns a, tr).

Definition bind {A B} (m : M A) (f : A -> M B) : M B :=
  fun tr =>
    match m tr with
    | (Returns a, tr') => f a tr'
    | (Raises e, tr') => (Raises e, tr')
    | (Hangs, tr') => (Hangs, tr')
    end.

Definition emit (e : Event) : M unit := fun tr => (Returns tt, tr ++ [e]).

Definition hang {A} : M A := fun tr => (Hangs, tr).

(** A pure expression evaluated inside a computation. *)
Definition lift {A} (r : result A) : M A :=
  fun tr =>
    match r with
    | Ok a => (Returns a, tr)
    | Raise e => (Raises e, tr)
    end.

#[global] Instance M_ret : MRet M := @ret.
#[global] Instance M_bind : MBind M := fun _ _ f m => bind m f.

(** [for x in xs: body], with the variables the body assigns threaded
    through as [s]. *)
Fixpoint for_each {A S} (xs : list A) (body : A -> S -> M S) (s : S) : M S :=
  match xs with
  | [] => ret s
  | x :: rest => bind (body x s) (for_each rest body)
  end.

(** [enumerate(xs)] *)
Definition enumerate {A} (xs : list A) : list (nat * A) :=
  zip (seq 0 (length xs)) xs.

End Effects.

Import Effects.

(** ** The collaborators [runner.py] imports *)

(** Modelled from the spec: [Environment] of [environment.py], of which
    [runner.py] reads three optional overrides (the gateway
    [checked_run] is [Runner.checked_run] below). *)
Record Environment := {
  pyre_client_override : option string;
  pyre_binary_override : option string;
  typeshed_override : option string;
}.

(** Modelled from the spec: a repository state of [specification.py]. Of
    the new state [runner.py] uses [update_steps()], an ordered list of
    steps, each applied with [step.update(environment, directory)]; of the
    old state it uses [activate_sandbox] ([Runner.activate_sandbox]
    below). A step is represented by its name. *)
Record RepositoryState := {
  update_steps : list string;
}.

(** Modelled from the spec: [Specification] of [specification.py], with the
    attributes [runner.py] reads. *)
Record Specification := {
  old_state : RepositoryState;
  new_state : RepositoryState;
  pyre_check_pyre_options : string;
  pyre_check_options : string;
  pyre_start_pyre_options : string;
  pyre_start_options : string;
  pyre_incremental_pyre_options : string;
  pyre_incremental_options : string;
}.

(** ** [class PyreRunner] and the two entry points *)

Module Runner.

Record PyreRunner := {
  _environment : Environment;
  _specification : Specification;
  _working_directory : Path;
  _pyre_invocation : string;
}.

Definition __init__ (environment : Environment) (specification : Specification)
    (working_directory : Path) : PyreRunner :=
  let invocation :=
    if truthy (pyre_client_override environment)
    then default "pyre" (pyre_client_override environment)
    else "pyre" in
  let binary_override := pyre_binary_override environment in
  let invocation :=
    if truthy binary_override
    then (invocation ++ " --binary " ++ default EmptyString binary_override)%string
    else invocation in
  let typeshed_override := typeshed_override environment in
  let invocation :=
    if truthy typeshed_override
    then (invocation ++ " --typeshed " ++ default EmptyString typeshed_override)%string
    else invocation in
  {| _environment := environment;
     _specification := specification;
     _working_directory := working_directory;
     _pyre_invocation := invocation |}.

(** The default of [expected_return_codes].
    Modelled from the spec: "default: exit 0 only". *)
Definition default_expected_return_codes : list Z := [0].

Section WithHost.

Context (host : Host).

(** Modelled from the spec: the process gateway [Environment.checked_run]
    runs the command in the directory and returns its exit code and output;
    it fails fatally unless the exit code is one of the expected ones. *)
Definition checked_run (working_directory : Path) (command : string)
    (expected_return_codes : list Z) : M CommandOutput :=
  fun tr =>
    let output := process host tr working_directory command in
    let tr' := tr ++ [Run working_directory command expected_return_codes output] in
    if bool_decide (return_code output ∈ expected_return_codes)
    then (Returns output, tr')
    else (Raises (ProcessError (return_code output)), tr').

(** [time()] *)
Definition time : M pyfloat :=
  fun tr => let now := clock host tr in (Returns now, tr ++ [Time now]).

(** [sleep(seconds)] *)
Definition sleep (seconds : Z) : M unit := emit (Sleep seconds).

Definition profile_command (self : PyreRunner) (output_kind : OutputKind) : string :=
  rstrip (_pyre_invocation self ++ " " ++ "profile --output=" ++ kind_name output_kind).

Definition run_profile (self : PyreRunner) (output_kind : OutputKind)
  : M (ProfileOutput output_kind) :=
  output ← checked_run (_working_directory self) (profile_command self output_kind)
             default_expected_return_codes;
  lift (json_loads_profile host output_kind (stdout output)).

(** The [while True] loop of [update], given [fuel] iterations. *)
Fixpoint poll (fuel : nat) (self : PyreRunner) (expected : nat)
  : M (list ProfileRecord) :=
  match fuel with
  | O => hang
  | S fuel' =>
      incremental_update_logs ← run_profile self incremental_updates;
      if (expected <? length incremental_update_logs)%nat
      then mret incremental_update_logs
      else sleep 1;; poll fuel' self expected
  end.

Definition update (fuel : nat) (self : PyreRunner) : M (list ProfileRecord) :=
  let new_state := new_state (_specification self) in
  let updates := update_steps new_state in
  for_each (enumerate updates)
    (fun '(expected, update) (_ : list ProfileRecord) =>
       emit (ApplyUpdate update (_working_directory self));;
       poll fuel self expected)
    [].

Definition check_command (self : PyreRunner) : string :=
  rstrip (_pyre_invocation self ++ " "
          ++ pyre_check_pyre_options (_specification self) ++ " "
          ++ "--output=json " ++ "--noninteractive " ++ "check "
          ++ pyre_check_options (_specification self)).

(** The tail shared by [run_check] and [run_incremental]. *)
Definition read_errors (output : CommandOutput) : M (list PyreError.t) :=
  if return_code output =? 0 then mret []
  else
    lift (decoded ← json_loads host (stdout output);
          items ← py_iter decoded;
          comprehension PyreError.from_json items).

Definition run_check (self : PyreRunner) : M (list PyreError.t) :=
  output ← checked_run (_working_directory self) (check_command self) [0; 1];
  read_errors output.

Definition start_command (self : PyreRunner) : string :=
  rstrip (_pyre_invocation self ++ " "
          ++ pyre_start_pyre_options (_specification self) ++ " "
          ++ "--no-saved-state --enable-profiling " ++ "restart "
          ++ pyre_start_options (_specification self)).

Definition run_start (self : PyreRunner) : M ProfileRecord :=
  checked_run (_working_directory self) (start_command self)
    default_expected_return_codes;;
  run_profile self cold_start_phases.

Definition stop_command (self : PyreRunner) : string :=
  (_pyre_invocation self ++ " stop")%string.

Definition run_stop (self : PyreRunner) : M unit :=
  checked_run (_working_directory self) (stop_command self)
    default_expected_return_codes;;
  mret tt.

Definition incremental_command (self : PyreRunner) : string :=
  rstrip (_pyre_invocation self ++ " "
          ++ pyre_incremental_pyre_options (_specification self) ++ " "
          ++ "--output=json " ++ "--noninteractive " ++ "incremental "
          ++ pyre_incremental_options (_specification self)).

Definition run_incremental (self : PyreRunner) : M (list PyreError.t) :=
  output ← checked_run (_working_directory self) (incremental_command self) [0; 1];
  read_errors output.

(** Modelled from the spec: [old_state.activate_sandbox(environment)] is a
    context manager that yields the sandbox directory; the [with] block is
    [body], and the sandbox is released when the block is left, by a return
    or by an exception. *)
Definition activate_sandbox {A} (body : Path -> M A) : M A :=
  fun tr =>
    let sandbox_root := sandbox host tr in
    match body sandbox_root (tr ++ [SandboxEnter sandbox_root]) with
    | (Hangs, tr') => (Hangs, tr')
    | (ended, tr') => (ended, tr' ++ [SandboxExit sandbox_root])
    end.

Definition _create_pyre_runner {A} (environment : Environment)
    (specification : Specification) (body : PyreRunner -> M A) : M A :=
  activate_sandbox (fun sandbox_root =>
    body (__init__ environment specification sandbox_root)).

(** The local variables that leave the [with] block of
    [compare_server_to_full]. *)
Record Measured := {
  cold_start_log : ProfileRecord;
  incremental_update_logs : list ProfileRecord;
  incremental_check_output : list PyreError.t;
  full_check_output : list PyreError.t;
  full_check_time : Z;
}.

(** Lines 239-245: the verdict. *)
Definition verdict (m : Measured) : ResultComparison.t :=
  let discrepancy :=
    if errors_eq (incremental_check_output m) (full_check_output m)
    then None
    else Some (InconsistentOutput.make (full_check_output m)
                                       (incremental_check_output m)) in
  let profile_logs :=
    ProfileLogs.make (incremental_update_logs m) (cold_start_log m) in
  ResultComparison.make discrepancy (full_check_time m) profile_logs.

(** Lines 217-237: the [with] block. Logging is left out. *)
Definition measure (fuel : nat) (pyre_runner : PyreRunner) : M Measured :=
  cold_start_log ← run_start pyre_runner;
  incremental_update_logs ← update fuel pyre_runner;
  incremental_check_output ← run_incremental pyre_runner;
  run_stop pyre_runner;;
  start_time ← time;
  full_check_output ← run_check pyre_runner;
  stop_time ← time;
  let full_check_time := elapsed_ms host start_time stop_time in
  mret {| cold_start_log := cold_start_log;
          incremental_update_logs := incremental_update_logs;
          incremental_check_output := incremental_check_output;
          full_check_output := full_check_output;
          full_check_time := full_check_time |}.

Definition compare_server_to_full (fuel : nat) (environment : Environment)
    (specification : Specification) : M ResultComparison.t :=
  measured ← _create_pyre_runner environment specification (measure fuel);
  mret (verdict measured).

(** Lines 252-264: the [with] block of [benchmark_server], which leaves
    the two profiles behind. Logging is left out. *)
Definition benchmark (fuel : nat) (pyre_runner : PyreRunner)
  : M (ProfileRecord * list ProfileRecord) :=
  cold_start_log ← run_start pyre_runner;
  incremental_update_logs ← update fuel pyre_runner;
  incremental_check_output ← run_incremental pyre_runner;
  run_stop pyre_runner;;
  mret (cold_start_log, incremental_update_logs).

Definition benchmark_server (fuel : nat) (environment : Environment)
    (specification : Specification) : M ProfileLogs.t :=
  profiles ← _create_pyre_runner environment specification (benchmark fuel);
  mret (ProfileLogs.make (snd profiles) (fst profiles)).

End WithHost.

End Runner.

(** ** The vocabulary of the claims

    What the claims speak of, defined once: the keys of an error record,
    sums of totals, the events of a run and how to count them, and the
    shapes of the runs that the claims describe. *)

(** The four keys [from_json] reads. *)
Definition required_keys : list string := ["line"; "column"; "path"; "description"].



(** The sum of a list of integers. *)
Definition sum_list_Z (totals : list Z) : Z := foldr Z.add 0 totals.

(** [totals] are the ["total"] fields of [logs], record by record. *)
Definition totals_of (logs : list ProfileRecord) (totals : list Z) : Prop :=
  Forall2 (fun (log : ProfileRecord) total => log !! "total" = Some total) logs totals.

(** The number of times [command] was run in a trace. *)
Definition is_run_of (command : string) (event : Event) : bool :=
  match event with
  | Run _ issued _ _ => String.eqb issued command
  | _ => false
  end.

Definition times_run (command : string) (tr : list Event) : nat :=
  length (List.filter (is_run_of command) tr).

(** The polls a run made beyond one per step. *)
Definition extra_polls (self : Runner.PyreRunner) (tr : list Event) : nat :=
  (times_run (Runner.profile_command self incremental_updates) tr
   - length (update_steps (new_state (Runner._specification self))))%nat.

(** [command] was run after a sandbox had been released ([released] tells
    whether one has been released before [tr]). *)
Fixpoint run_after_release (command : string) (released : bool) (tr : list Event) : bool :=
  match tr with
  | [] => false
  | SandboxExit _ :: rest => run_after_release command true rest
  | event :: rest =>
      (released && is_run_of command event) || run_after_release command released rest
  end.

Section Gateway.

Context (host : Host).

(** The event a gateway call adds to the trace. *)
Definition run_event (tr : list Event) (working_directory : Path) (command : string)
    (expected_return_codes : list Z) : Event :=
  Run working_directory command expected_return_codes
      (process host tr working_directory command).

(** What the claim says of a checker invocation [run] that issues
    [command]: one gateway call accepting the exit codes 0 and 1; exit code
    0 gives no errors whatever the output is; exit code 1 with an output
    that decodes to an array gives the records of its elements, in order;
    any other exit code is fatal. *)
Definition checker_contract
    (run : Runner.PyreRunner -> M (list PyreError.t))
    (command : Runner.PyreRunner -> string) : Prop :=
  forall self tr,
    let output := process host tr (Runner._working_directory self) (command self) in
    let tr' := tr ++ [Run (Runner._working_directory self) (command self) [0; 1] output] in
    (return_code output = 0 -> run self tr = (Returns [], tr'))
    /\ (return_code output = 1 ->
        forall items errors,
          json_loads host (stdout output) = Ok (JArray items) ->
          Forall2 (fun item error => PyreError.from_json item = Ok error) items errors ->
          run self tr = (Returns errors, tr'))
    /\ (return_code output <> 0 -> return_code output <> 1 ->
        run self tr = (Raises (ProcessError (return_code output)), tr')).

End Gateway.

Section Driver.

Context (host : Host) (self : Runner.PyreRunner).
Implicit Types (tr events : list Event) (logs result : list ProfileRecord).

Let wd : Path := Runner._working_directory self.
Let poll_command : string := Runner.profile_command self incremental_updates.

(** What the profiling endpoint answers to a poll made after [tr]. *)
Definition poll_output tr : CommandOutput := process host tr wd poll_command.

Definition poll_event tr : Event := Run wd poll_command [0] (poll_output tr).

(** The polls of one step, as the claim describes them: the update logs are
    fetched, and either there are more than [expected] of them and the
    step is over, or the driver sleeps one second and polls again. *)
Inductive polled (expected : nat) : list Event -> list Event -> list ProfileRecord -> Prop :=
| polled_arrived tr logs :
    return_code (poll_output tr) = 0 ->
    json_loads_profile host incremental_updates (stdout (poll_output tr)) = Ok logs ->
    (expected < length logs)%nat ->
    polled expected tr [poll_event tr] logs
| polled_waiting tr logs events result :
    return_code (poll_output tr) = 0 ->
    json_loads_profile host incremental_updates (stdout (poll_output tr)) = Ok logs ->
    (length logs <= expected)%nat ->
    polled expected (tr ++ [poll_event tr; Sleep 1]) events result ->
    polled expected tr (poll_event tr :: Sleep 1 :: events) result.

(** The driver, as the claim describes it: the steps are taken in order,
    each one applied and then polled for with the current expected count,
    which grows by one from step to step; the value returned is the last
    sequence of logs fetched (or [last], when there is no step). *)
Inductive driven : nat -> list string -> list Event -> list ProfileRecord ->
                   list Event -> list ProfileRecord -> Prop :=
| driven_done expected tr last : driven expected [] tr last [] last
| driven_step expected step steps tr last polls logs events result :
    polled expected (tr ++ [ApplyUpdate step wd]) polls logs ->
    driven (S expected) steps ((tr ++ [ApplyUpdate step wd]) ++ polls) logs events result ->
    driven expected (step :: steps) tr last
           (ApplyUpdate step wd :: polls ++ events) result.

(** The body of the [for] loop of [update], named to state lemmas about
    the loop. *)
Definition update_body (fuel : nat) : nat * string -> list ProfileRecord -> M (list ProfileRecord) :=
  fun '(expected, update) _ =>
    emit (ApplyUpdate update wd);;
    Runner.poll host fuel self expected.

End Driver.

Section Protocol.

Context (host : Host).

(** The order of events the amended C2 describes, for a run started after
    [tr] that ended with the trace [tr'] and the result [comparison]. *)
Definition sandboxed_protocol (environment : Environment)
    (specification : Specification) (tr : list Event)
    (comparison : ResultComparison.t) (tr' : list Event) : Prop :=
  let root := sandbox host tr in
  let self := Runner.__init__ environment specification root in
  exists started cold updated logs incremental stopped start_time full stop_time,
    tr' = tr
          ++ [SandboxEnter root;
              Run root (Runner.start_command self) [0] started;
              Run root (Runner.profile_command self cold_start_phases) [0] cold]
          ++ updated
          ++ [Run root (Runner.incremental_command self) [0; 1] incremental;
              Run root (Runner.stop_command self) [0] stopped;
              Time start_time;
              Run root (Runner.check_command self) [0; 1] full;
              Time stop_time;
              SandboxExit root]
    /\ driven host self 0 (update_steps (new_state specification))
              (tr ++ [SandboxEnter root;
                      Run root (Runner.start_command self) [0] started;
                      Run root (Runner.profile_command self cold_start_phases) [0] cold])
              [] updated logs
    /\ ProfileLogs.incremental_update_logs (ResultComparison.profile_logs comparison) = logs
    /\ ResultComparison.full_check_time comparison
       = elapsed_ms host start_time stop_time.

(** What C1 says of a run started after [tr] that ended with the trace
    [tr'] and the result [comparison]: the discrepancy is decided by [==] on
    the errors that the incremental check and, later, the full check of
    this run returned. *)
Definition discrepancy_reflects_outputs (environment : Environment)
    (specification : Specification) (tr : list Event)
    (comparison : ResultComparison.t) (tr' : list Event) : Prop :=
  let self := Runner.__init__ environment specification (sandbox host tr) in
  exists before_incremental after_incremental before_check after_check
         incremental full,
    tr `prefix_of` before_incremental
    /\ Runner.run_incremental host self before_incremental
       = (Returns incremental, after_incremental)
    /\ after_incremental `prefix_of` before_check
    /\ Runner.run_check host self before_check = (Returns full, after_check)
    /\ after_check `prefix_of` tr'
    /\ ResultComparison.discrepancy comparison
       = (if errors_eq incremental full then None
          else Some (InconsistentOutput.make full incremental))
    /\ (Forall PyreError.well_typed incremental -> Forall PyreError.well_typed full ->
        (ResultComparison.discrepancy comparison = None <-> incremental = full)
        /\ (incremental <> full ->
            ResultComparison.discrepancy comparison
            = Some {| InconsistentOutput.full_check_output := full;
                      InconsistentOutput.incremental_check_output := incremental |})).

End Protocol.

(** ** Concrete inputs

    The inputs at which the properties below are instantiated. *)

Module Examples.

(** [{"line": 1, "column": 2, "path": "a.py", "description": "x"}] *)
Definition complete_input : gmap string json :=
  <["line" := JInt 1]> (<["column" := JInt 2]>
  (<["path" := JString "a.py"]> (<["description" := JString "x"]> ∅))).

(** The same with the key ["path"] left out. *)
Definition no_path_input : gmap string json :=
  <["line" := JInt 1]> (<["column" := JInt 2]>
  (<["description" := JString "x"]> ∅)).





(** Two update logs with totals 3 and 4, and one without a total. *)
Definition two_logs : ProfileLogs.t :=
  ProfileLogs.make [ {["total" := 3]}; {["total" := 4; "parse" := 1]} ] ∅.

Definition log_without_total : ProfileLogs.t :=
  ProfileLogs.make [ {["total" := 3]}; {["parse" := 1]}; {["total" := 4]} ] ∅.

Definition error_a : PyreError.t :=
  PyreError.make 1 2 (JString "a.py") (JString "x").

Definition error_b : PyreError.t :=
  PyreError.make 7 0 (JString "b.py") (JString "y").

(** A comparison that found the full check reporting one error more. *)
Definition differing_comparison : ResultComparison.t :=
  ResultComparison.make
    (Some (InconsistentOutput.make [error_a; error_b] [error_a])) 250 two_logs.

(** *** A checker to run against *)

Definition example_environment : Environment :=
  {| pyre_client_override := None;
     pyre_binary_override := Some "/bin/pyre.bin";
     typeshed_override := None |}.

(** A specification with three update steps. *)
Definition example_specification : Specification :=
  {| old_state := {| update_steps := [] |};
     new_state := {| update_steps := ["first"; "second"; "third"] |};
     pyre_check_pyre_options := EmptyString;
     pyre_check_options := EmptyString;
     pyre_start_pyre_options := "--debug";
     pyre_start_options := "--terminal  ";
     pyre_incremental_pyre_options := EmptyString;
     pyre_incremental_options := EmptyString |}.

Definition example_runner : Runner.PyreRunner :=
  Runner.__init__ example_environment example_specification "/sandbox".

(** The double-quote character (code 34) and a word between two of them. *)
Definition double_quote : string := String (ascii_of_nat 34) EmptyString.

Definition quoted (word : string) : string :=
  (double_quote ++ word ++ double_quote)%string.

(** The JSON text of an error record whose path and description are the
    given words. *)
Definition error_text (line column path description : string) : string :=
  ("{" ++ quoted "line" ++ ": " ++ line ++ ", "
   ++ quoted "column" ++ ": " ++ column ++ ", "
   ++ quoted "path" ++ ": " ++ quoted path ++ ", "
   ++ quoted "description" ++ ": " ++ quoted description ++ "}")%string.

Definition one_error_text : string :=
  ("[" ++ error_text "1" "2" "a.py" "x" ++ "]")%string.

Definition two_errors_text : string :=
  ("[" ++ error_text "1" "2" "a.py" "x" ++ ", "
   ++ error_text "7" "0" "b.py" "y" ++ "]")%string.

Definition other_input : gmap string json :=
  <["line" := JInt 7]> (<["column" := JInt 0]>
  (<["path" := JString "b.py"]> (<["description" := JString "y"]> ∅))).

(** [json.loads] on the texts the example checker prints. *)
Definition decode (text : string) : result json :=
  if decide (text = "[]") then Ok (JArray [])
  else if decide (text = one_error_text) then Ok (JArray [JObject complete_input])
  else if decide (text = two_errors_text)
       then Ok (JArray [JObject complete_input; JObject other_input])
  else Raise JSONDecodeError.

Definition decode_update_logs (text : string) : result (list ProfileRecord) :=
  if decide (text = "[]") then Ok []
  else if decide (text = "[{}]") then Ok [∅]
  else if decide (text = "[{}, {}]") then Ok [∅; ∅]
  else if decide (text = "[{}, {}, {}]") then Ok [∅; ∅; ∅]
  else Raise JSONDecodeError.

Definition decode_cold_start (text : string) : result ProfileRecord :=
  if decide (text = "{}") then Ok ∅ else Raise JSONDecodeError.

Definition decode_profile (kind : OutputKind) : string -> result (ProfileOutput kind) :=
  match kind with
  | incremental_updates => decode_update_logs
  | cold_start_phases => decode_cold_start
  end.

(** A clock that advances one second per event, and the milliseconds
    between two of its readings. *)
Definition event_clock (tr : list Event) : pyfloat := FFinite (Z.of_nat (length tr)) 0.

Definition whole_seconds_ms (start stop : pyfloat) : Z :=
  match start, stop with
  | FFinite m 0, FFinite m' 0 => (m' - m) * 1000
  | _, _ => 0
  end.

(** A process that answers every command with the same exit code and
    output. *)
Definition constant_host (code : Z) (text : string) : Host :=
  {| process := fun _ _ _ => {| return_code := code; stdout := text |};
     sandbox := fun _ => "/sandbox";
     clock := event_clock;
     json_loads := decode;
     json_loads_profile := decode_profile;
     elapsed_ms := whole_seconds_ms |}.

(** A server for [example_runner]: its profiling endpoint answers the
    successive polls for the update logs with the texts of [polls] (and
    with the text [[]] once these are used up); the incremental check and
    the full check answer as given; every other command succeeds. *)
Definition server_process (polls : list string)
    (incremental check : CommandOutput) (tr : list Event) (_ : Path)
    (command : string) : CommandOutput :=
  let updates := Runner.profile_command example_runner incremental_updates in
  if decide (command = updates)
  then {| return_code := 0; stdout := nth (times_run updates tr) polls "[]" |}
  else if decide (command = Runner.profile_command example_runner cold_start_phases)
  then {| return_code := 0; stdout := "{}" |}
  else if decide (command = Runner.incremental_command example_runner)
  then incremental
  else if decide (command = Runner.check_command example_runner)
  then check
  else {| return_code := 0; stdout := EmptyString |}.

Definition server (polls : list string) (incremental check : CommandOutput) : Host :=
  {| process := server_process polls incremental check;
     sandbox := fun _ => "/sandbox";
     clock := event_clock;
     json_loads := decode;
     json_loads_profile := decode_profile;
     elapsed_ms := whole_seconds_ms |}.

(** The endpoint reports 0, 0, 1, 1, 2 and 3 update logs. *)
Definition slow_polls : list string :=
  ["[]"; "[]"; "[{}]"; "[{}]"; "[{}, {}]"; "[{}, {}, {}]"].

Definition quiet : CommandOutput := {| return_code := 0; stdout := EmptyString |}.

(** A server that is slow to log its updates, and whose two checks report
    nothing. *)
Definition slow_server : Host := server slow_polls quiet quiet.

Definition update_logs_command : string :=
  Runner.profile_command example_runner incremental_updates.

(** A fetch of the update logs that was answered with [text]. *)
Definition fetched (text : string) : Event :=
  Run "/sandbox" update_logs_command [0] {| return_code := 0; stdout := text |}.

(** The run of the driver against [slow_server]. *)
Definition slow_trace : list Event :=
  [ ApplyUpdate "first" "/sandbox";
    fetched "[]"; Sleep 1; fetched "[]"; Sleep 1; fetched "[{}]";
    ApplyUpdate "second" "/sandbox";
    fetched "[{}]"; Sleep 1; fetched "[{}, {}]";
    ApplyUpdate "third" "/sandbox";
    fetched "[{}, {}, {}]" ].

(** A server whose incremental check reports one error and whose full
    check reports two. *)
Definition differing_server : Host :=
  server slow_polls
         {| return_code := 1; stdout := one_error_text |}
         {| return_code := 1; stdout := two_errors_text |}.

(** A server whose two checks report the same error. *)
Definition agreeing_server : Host :=
  server slow_polls
         {| return_code := 1; stdout := one_error_text |}
         {| return_code := 1; stdout := one_error_text |}.

End Examples.

(** ** Further vocabulary

    Measures of a trace and shapes of runs used by the properties that go
    beyond the claims. *)

(** The update steps a trace applied, in order. *)
Fixpoint applied_steps (tr : list Event) : list string :=
  match tr with
  | [] => []
  | ApplyUpdate step _ :: rest => step :: applied_steps rest
  | _ :: rest => applied_steps rest
  end.

(** The number of gateway calls and of sleeps in a trace. *)
Fixpoint count_runs (tr : list Event) : nat :=
  match tr with
  | [] => 0%nat
  | Run _ _ _ _ :: rest => S (count_runs rest)
  | _ :: rest => count_runs rest
  end.

Fixpoint count_sleeps (tr : list Event) : nat :=
  match tr with
  | [] => 0%nat
  | Sleep _ :: rest => S (count_sleeps rest)
  | _ :: rest => count_sleeps rest
  end.

(** The event, if it names a directory, names [root]. *)
Definition in_directory (root : Path) (event : Event) : Prop :=
  match event with
  | Run working_directory _ _ _ => working_directory = root
  | ApplyUpdate _ working_directory => working_directory = root
  | SandboxEnter entered => entered = root
  | SandboxExit released => released = root
  | Sleep _ | Time _ => True
  end.

(** The last character of a string is a blank. *)
Fixpoint ends_with_space (s : string) : bool :=
  match s with
  | EmptyString => false
  | String c EmptyString => is_space c
  | String _ rest => ends_with_space rest
  end.

(** An override as [__init__] reads it: an empty string counts as none. *)
Definition effective (override : option string) : option string :=
  if truthy override then override else None.

(** The flag [__init__] adds for an override. *)
Definition flag (name : string) (override : option string) : string :=
  match effective override with
  | Some value => (name ++ value)%string
  | None => EmptyString
  end.

Section FurtherProtocol.

Context (host : Host).

(** The events of a run of [benchmark_server] started after [tr] that
    returned [logs] with the trace [tr']: the sandbox is entered, the
    server started and its cold-start record read, the updates driven, the
    incremental check run, the server stopped, the sandbox left. *)
Definition benchmark_protocol (environment : Environment)
    (specification : Specification) (tr : list Event)
    (logs : ProfileLogs.t) (tr' : list Event) : Prop :=
  let root := sandbox host tr in
  let self := Runner.__init__ environment specification root in
  exists started cold updated incremental stopped,
    tr' = tr
          ++ [SandboxEnter root;
              Run root (Runner.start_command self) [0] started;
              Run root (Runner.profile_command self cold_start_phases) [0] cold]
          ++ updated
          ++ [Run root (Runner.incremental_command self) [0; 1] incremental;
              Run root (Runner.stop_command self) [0] stopped;
              SandboxExit root]
    /\ driven host self 0 (update_steps (new_state specification))
              (tr ++ [SandboxEnter root;
                      Run root (Runner.start_command self) [0] started;
                      Run root (Runner.profile_command self cold_start_phases) [0] cold])
              [] updated (ProfileLogs.incremental_update_logs logs)
    /\ json_loads_profile host cold_start_phases (stdout cold)
       = Ok (ProfileLogs.cold_start_log logs).

(** A checker invocation [run] issuing [command] returns all the records
    or none: at exit code 1, an output that [json.loads] rejects raises
    the decoder's error, and an array with an element that [from_json]
    rejects raises the error of the first such element. *)
Definition all_or_nothing
    (run : Runner.PyreRunner -> M (list PyreError.t))
    (command : Runner.PyreRunner -> string) : Prop :=
  forall self tr,
    let output := process host tr (Runner._working_directory self) (command self) in
    let tr' := tr ++ [Run (Runner._working_directory self) (command self) [0; 1] output] in
    return_code output = 1 ->
    (forall e, json_loads host (stdout output) = Raise e -> run self tr = (Raises e, tr'))
    /\ (forall good bad rest records e,
          json_loads host (stdout output) = Ok (JArray (good ++ bad :: rest)) ->
          Forall2 (fun item record => PyreError.from_json item = Ok record) good records ->
          PyreError.from_json bad = Raise e ->
          run self tr = (Raises e, tr')).

End FurtherProtocol.

(** ** Further inputs *)

Module MoreExamples.

Import Examples.

(** An error record with keys beyond the four that are read. *)
Definition verbose_input : gmap string json :=
  <["code" := JInt 16]> (<["name" := JString "Undefined attribute"]> complete_input).

(** The text of an array whose second element has no path. *)
Definition incomplete_text : string :=
  ("[" ++ error_text "1" "2" "a.py" "x" ++ ", {"
   ++ quoted "line" ++ ": 1, " ++ quoted "column" ++ ": 2, "
   ++ quoted "description" ++ ": " ++ quoted "x" ++ "}, "
   ++ error_text "7" "0" "b.py" "y" ++ "]")%string.

Definition decode_incomplete (text : string) : result json :=
  if decide (text = incomplete_text)
  then Ok (JArray [JObject complete_input; JObject no_path_input; JObject other_input])
  else decode text.

(** A checker that exits with 1 and prints [incomplete_text]. *)
Definition incomplete_host : Host :=
  {| process := fun _ _ _ => {| return_code := 1; stdout := incomplete_text |};
     sandbox := fun _ => "/sandbox";
     clock := event_clock;
     json_loads := decode_incomplete;
     json_loads_profile := decode_profile;
     elapsed_ms := whole_seconds_ms |}.

(** A server whose incremental check crashes with exit code 2. *)
Definition crashing_server : Host :=
  server slow_polls {| return_code := 2; stdout := "Traceback" |} quiet.

(** The example server, but its restart exits with 1. *)
Definition unstartable_process (tr : list Event) (wd : Path) (command : string)
  : CommandOutput :=
  if decide (command = Runner.start_command example_runner)
  then {| return_code := 1; stdout := EmptyString |}
  else server_process slow_polls quiet quiet tr wd command.

Definition unstartable_server : Host :=
  {| process := unstartable_process;
     sandbox := fun _ => "/sandbox";
     clock := event_clock;
     json_loads := decode;
     json_loads_profile := decode_profile;
     elapsed_ms := whole_seconds_ms |}.

(** A server whose profiling endpoint fails on the second poll. *)
Definition failing_poll_process (tr : list Event) (wd : Path) (command : string)
  : CommandOutput :=
  if decide (command = update_logs_command)
  then match times_run update_logs_command tr with
       | 0%nat => {| return_code := 0; stdout := "[]" |}
       | _ => {| return_code := 3; stdout := EmptyString |}
       end
  else server_process slow_polls quiet quiet tr wd command.

Definition failing_poll_server : Host :=
  {| process := failing_poll_process;
     sandbox := fun _ => "/sandbox";
     clock := event_clock;
     json_loads := decode;
     json_loads_profile := decode_profile;
     elapsed_ms := whole_seconds_ms |}.

(** An environment whose overrides are all empty strings, and one with a
    client and a typeshed. *)
Definition blank_environment : Environment :=
  {| pyre_client_override := Some EmptyString;
     pyre_binary_override := Some EmptyString;
     typeshed_override := Some EmptyString |}.

Definition full_environment : Environment :=
  {| pyre_client_override := Some "buck run pyre --";
     pyre_binary_override := Some "/bin/pyre.bin";
     typeshed_override := Some "/typeshed" |}.



(** A specification without update steps, and its runner. *)
Definition idle_specification : Specification :=
  {| old_state := {| update_steps := [] |};
     new_state := {| update_steps := [] |};
     pyre_check_pyre_options := EmptyString;
     pyre_check_options := EmptyString;
     pyre_start_pyre_options := EmptyString;
     pyre_start_options := EmptyString;
     pyre_incremental_pyre_options := EmptyString;
     pyre_incremental_options := EmptyString |}.

Definition idle_runner : Runner.PyreRunner :=
  Runner.__init__ example_environment idle_specification "/sandbox".

End MoreExamples.

(** * Properties *)

(** ** [PyreError.from_json] *)

Section FromJson.

Import PyreError.
Implicit Types (d : gmap string json) (v : json).

Lemma py_int_no_KeyError v key : py_int v <> Raise (KeyError key).
Proof.
  destruct v as [ | b | z | f | s | xs | d]; simpl; try discriminate.
  - destruct f; simpl; discriminate.
  - unfold int_of_str.
    destruct (match drop_trailing_blanks (skip_blanks s) with
              | EmptyString => _ | _ => _ end) as [[z count]|]; [|discriminate].
    destruct (int_max_str_digits <? count); discriminate.
Qed.


(** [from_json] on a dict, with the order of evaluation spelled out. *)
Lemma from_json_dict d :
  from_json (JObject d) =
  match d !! "line" with
  | None => Raise (MalformedPyreOutputException (missing_key_message "line"))
  | Some l =>
    match py_int l with
    | Raise e => Raise e
    | Ok line =>
      match d !! "column" with
      | None => Raise (MalformedPyreOutputException (missing_key_message "column"))
      | Some c =>
        match py_int c with
        | Raise e => Raise e
        | Ok column =>
          match d !! "path" with
          | None => Raise (MalformedPyreOutputException (missing_key_message "path"))
          | Some path =>
            match d !! "description" with
            | None =>
                Raise (MalformedPyreOutputException (missing_key_message "description"))
            | Some description => Ok (make line column path description)
            end
          end
        end
      end
    end
  end.
Proof.
  unfold from_json, subscript, mbind, result_mbind, result_bind, mret, result_ret.
  destruct (d !! "line") as [l|]; [|reflexivity].
  destruct (py_int l) as [line|e] eqn:El.
  2:{ destruct e; try reflexivity. by apply py_int_no_KeyError in El. }
  destruct (d !! "column") as [c|]; [|reflexivity].
  destruct (py_int c) as [column|e] eqn:Ec.
  2:{ destruct e; try reflexivity. by apply py_int_no_KeyError in Ec. }
  destruct (d !! "path") as [p|]; [|reflexivity].
  destruct (d !! "description") as [x|]; reflexivity.
Qed.

(** A value that is not a dict cannot be subscripted by a key. *)
Lemma from_json_not_dict v :
  (forall d, v <> JObject d) -> from_json v = Raise TypeError.
Proof.
  intros Hv. destruct v; try reflexivity. by destruct (Hv d).
Qed.

End FromJson.

Section FromJsonClaims.

Import PyreError.
Implicit Types (d : gmap string json) (v : json).






End FromJsonClaims.

(** ** [ProfileLogs.total_of_totals] and [ResultComparison.to_json] *)

Section Totals.

Import ProfileLogs.

Lemma sum_totals_all logs : forall totals acc,
  totals_of logs totals -> sum_totals acc logs = Ok (acc + sum_list_Z totals).
Proof.
  induction logs as [|log logs IH]; intros totals acc H; inversion H; subst; simpl.
  - f_equal. lia.
  - match goal with Hlog : log !! "total" = Some _ |- _ => rewrite Hlog end.
    erewrite IH by eassumption. f_equal. lia.
Qed.

Lemma sum_totals_missing logs : forall acc,
  (exists log : ProfileRecord, log ∈ logs /\ log !! "total" = None) ->
  sum_totals acc logs = Raise (KeyError "total").
Proof.
  induction logs as [|log logs IH]; intros acc (bad & Hin & Hbad).
  - by apply elem_of_nil in Hin.
  - simpl. destruct (log !! "total") as [total|] eqn:Hlog; [|reflexivity].
    apply IH. exists bad. split; [|done].
    apply elem_of_cons in Hin as [->|Hin]; [congruence | done].
Qed.

(** C5: [total_of_totals] is the sum of the ["total"] fields of the update
    logs, 0 when there are none, and a [KeyError] as soon as one record has
    no ["total"]. *)
Theorem total_of_totals_sum (logs : ProfileLogs.t) :
  (forall totals, totals_of (incremental_update_logs logs) totals ->
                  total_of_totals logs = Ok (sum_list_Z totals))
  /\ (incremental_update_logs logs = [] -> total_of_totals logs = Ok 0)
  /\ ((exists log : ProfileRecord,
          log ∈ incremental_update_logs logs /\ log !! "total" = None) ->
      total_of_totals logs = Raise (KeyError "total")).
Proof.
  unfold total_of_totals. split; [|split].
  - intros totals H. by rewrite (sum_totals_all _ totals 0 H).
  - intros ->. reflexivity.
  - apply sum_totals_missing.
Qed.

(** The totals 3 and 4 add up to 7; a record without total is not skipped. *)
Lemma total_of_totals_sum_witness :
  total_of_totals Examples.two_logs = Ok 7
  /\ total_of_totals (make [] ∅) = Ok 0
  /\ total_of_totals Examples.log_without_total = Raise (KeyError "total").
Proof.
  split; [|split].
  - apply (proj1 (total_of_totals_sum Examples.two_logs) [3; 4]).
    repeat constructor.
  - apply (proj1 (proj2 (total_of_totals_sum (make [] ∅)))). reflexivity.
  - apply (proj2 (proj2 (total_of_totals_sum Examples.log_without_total))).
    exists {["parse" := 1]}. split; [|reflexivity].
    apply list_elem_of_further, list_elem_of_here.
Defined.

End Totals.

Section ToJson.

Import ResultComparison.

(** C6: whenever the total of the update logs can be computed, [to_json]
    returns a dict with ["full_check_time"] bound to the stored time and
    ["incremental_check_time"] bound to [total_of_totals()]; asked not to
    show the discrepancy, the dict has no ["discrepancy"] key, whether a
    discrepancy is stored or not; otherwise the key is bound to the string
    ["none"] when there is no discrepancy and to the two arrays of errors
    when there is one. *)
Theorem to_json_fields (self : ResultComparison.t) (total : Z) :
  ProfileLogs.total_of_totals (profile_logs self) = Ok total ->
  (exists result,
      to_json self true = Ok result
      /\ result !! "discrepancy" = None
      /\ result !! "full_check_time" = Some (JInt (full_check_time self))
      /\ result !! "incremental_check_time" = Some (JInt total))
  /\ (exists result,
      to_json self false = Ok result
      /\ result !! "full_check_time" = Some (JInt (full_check_time self))
      /\ result !! "incremental_check_time" = Some (JInt total)
      /\ match discrepancy self with
         | None => result !! "discrepancy" = Some (JString "none")
         | Some found =>
             exists arrays,
               result !! "discrepancy" = Some (JObject arrays)
               /\ arrays !! "full_check_output"
                  = Some (JArray (PyreError.asdict
                                    <$> InconsistentOutput.full_check_output found))
               /\ arrays !! "incremental_check_output"
                  = Some (JArray (PyreError.asdict
                                    <$> InconsistentOutput.incremental_check_output found))
         end).
Proof.
  intros Htotal. unfold to_json. rewrite Htotal. split.
  - eexists. split; [reflexivity|]. by simplify_map_eq.
  - eexists. split; [reflexivity|]. split; [by simplify_map_eq|].
    split; [by simplify_map_eq|].
    destruct (discrepancy self) as [found|]; [|by simplify_map_eq].
    eexists. split; [by simplify_map_eq|].
    unfold InconsistentOutput.to_json. by simplify_map_eq.
Qed.

(** A comparison with a discrepancy, serialised both ways. *)
Lemma to_json_fields_witness :
  (exists result,
      to_json Examples.differing_comparison true = Ok result
      /\ result !! "discrepancy" = None
      /\ result !! "full_check_time" = Some (JInt 250)
      /\ result !! "incremental_check_time" = Some (JInt 7))
  /\ (exists result,
      to_json Examples.differing_comparison false = Ok result
      /\ result !! "full_check_time" = Some (JInt 250)
      /\ result !! "incremental_check_time" = Some (JInt 7)
      /\ exists arrays,
           result !! "discrepancy" = Some (JObject arrays)
           /\ arrays !! "full_check_output"
              = Some (JArray [PyreError.asdict Examples.error_a;
                              PyreError.asdict Examples.error_b])
           /\ arrays !! "incremental_check_output"
              = Some (JArray [PyreError.asdict Examples.error_a])).
Proof.
  apply (to_json_fields Examples.differing_comparison 7). reflexivity.
Defined.

(** When a record has no ["total"], nothing is serialised. *)
Lemma to_json_raises (self : ResultComparison.t) e dont_show_discrepancy :
  ProfileLogs.total_of_totals (profile_logs self) = Raise e ->
  to_json self dont_show_discrepancy = Raise e.
Proof. intros H. unfold to_json. by rewrite H. Qed.

End ToJson.

(** ** Computations and their traces *)

Section Computations.

Context {A B : Type}.
Implicit Types (m : M A) (f : A -> M B) (tr : list Event).

Lemma bind_unfold m f tr :
  (m ≫= f) tr =
  match m tr with
  | (Returns a, tr') => f a tr'
  | (Raises e, tr') => (Raises e, tr')
  | (Hangs, tr') => (Hangs, tr')
  end.
Proof. reflexivity. Qed.

(** A sequence returns exactly when both halves do, one after the other. *)
Lemma bind_returns m f tr b tr2 :
  (m ≫= f) tr = (Returns b, tr2) <->
  exists a tr1, m tr = (Returns a, tr1) /\ f a tr1 = (Returns b, tr2).
Proof.
  rewrite bind_unfold. split.
  - destruct (m tr) as [[a| |] tr1]; [eauto | discriminate..].
  - intros (a & tr1 & -> & Hf). exact Hf.
Qed.

Lemma bind_of_returns m f tr a tr1 :
  m tr = (Returns a, tr1) -> (m ≫= f) tr = f a tr1.
Proof. intros H. by rewrite bind_unfold, H. Qed.

Lemma bind_of_raises m f tr e tr1 :
  m tr = (Raises e, tr1) -> (m ≫= f) tr = (Raises e, tr1).
Proof. intros H. by rewrite bind_unfold, H. Qed.

End Computations.

Section GatewayFacts.

Context (host : Host).
Implicit Types (self : Runner.PyreRunner) (tr : list Event).

Lemma checked_run_expected tr wd command expected :
  return_code (process host tr wd command) ∈ expected ->
  Runner.checked_run host wd command expected tr
  = (Returns (process host tr wd command), tr ++ [run_event host tr wd command expected]).
Proof.
  intros H. unfold Runner.checked_run. by rewrite bool_decide_eq_true_2.
Qed.

Lemma checked_run_unexpected tr wd command expected :
  return_code (process host tr wd command) ∉ expected ->
  Runner.checked_run host wd command expected tr
  = (Raises (ProcessError (return_code (process host tr wd command))),
     tr ++ [run_event host tr wd command expected]).
Proof.
  intros H. unfold Runner.checked_run. by rewrite bool_decide_eq_false_2.
Qed.

Lemma checked_run_returns tr wd command expected output tr' :
  Runner.checked_run host wd command expected tr = (Returns output, tr') ->
  output = process host tr wd command
  /\ return_code output ∈ expected
  /\ tr' = tr ++ [run_event host tr wd command expected].
Proof.
  unfold Runner.checked_run. case_bool_decide; [|discriminate].
  intros [= <- <-]. done.
Qed.

End GatewayFacts.

(** ** [run_check] and [run_incremental] *)

Section Checks.

Context (host : Host).
Implicit Types (self : Runner.PyreRunner) (tr : list Event).

Lemma comprehension_all {X Y} (f : X -> result Y) xs ys :
  Forall2 (fun x y => f x = Ok y) xs ys -> comprehension f xs = Ok ys.
Proof.
  induction 1 as [|x y xs ys Hx _ IH]; simpl; [done|]. by rewrite Hx, IH.
Qed.

Lemma read_errors_contract run command :
  (forall self,
      run self
      = (Runner.checked_run host (Runner._working_directory self) (command self) [0; 1]
           ≫= Runner.read_errors host)) ->
  checker_contract host run command.
Proof.
  intros Hrun self tr output tr'. rewrite Hrun. split; [|split].
  - intros Hcode.
    assert (Hin : return_code output ∈ [0; 1]) by (rewrite Hcode; repeat constructor).
    rewrite (bind_of_returns _ _ _ _ _ (checked_run_expected host tr _ _ _ Hin)).
    fold output. unfold Runner.read_errors. by rewrite Hcode.
  - intros Hcode items errors Hloads Hitems.
    assert (Hin : return_code output ∈ [0; 1]) by (rewrite Hcode; repeat constructor).
    rewrite (bind_of_returns _ _ _ _ _ (checked_run_expected host tr _ _ _ Hin)).
    fold output. unfold Runner.read_errors. rewrite Hcode. simpl.
    unfold lift. rewrite Hloads. simpl.
    by rewrite (comprehension_all _ _ _ Hitems).
  - intros H0 H1.
    apply bind_of_raises, checked_run_unexpected. fold output.
    rewrite !elem_of_cons, elem_of_nil. tauto.
Qed.

(** C3: [run_check] and [run_incremental] accept the exit codes 0 and 1:
    exit code 0 gives the empty list without reading the output, exit code
    1 gives one record per element of the decoded array, in the order of
    the array, and every other exit code is a fatal process error. *)
Theorem checker_exit_codes :
  checker_contract host (Runner.run_check host) Runner.check_command
  /\ checker_contract host (Runner.run_incremental host) Runner.incremental_command.
Proof. split; apply read_errors_contract; reflexivity. Qed.

End Checks.

(** Three checkers: one exits with 0 and prints no JSON at all, one exits
    with 1 and prints an array of two errors, one exits with 2. *)
Lemma checker_exit_codes_witness :
  let self := Examples.example_runner in
  let command := Runner.check_command self in
  Runner.run_check (Examples.constant_host 0 "Traceback") self []
  = (Returns [],
     [Run "/sandbox" command [0; 1] {| return_code := 0; stdout := "Traceback" |}])
  /\ Runner.run_check (Examples.constant_host 1 Examples.two_errors_text) self []
     = (Returns [Examples.error_a; Examples.error_b],
        [Run "/sandbox" command [0; 1]
             {| return_code := 1; stdout := Examples.two_errors_text |}])
  /\ Runner.run_check (Examples.constant_host 2 "[]") self []
     = (Raises (ProcessError 2),
        [Run "/sandbox" command [0; 1] {| return_code := 2; stdout := "[]" |}]).
Proof.
  intros self command. split; [|split].
  - apply (proj1 (checker_exit_codes (Examples.constant_host 0 "Traceback")) self []).
    reflexivity.
  - apply (proj1 (checker_exit_codes (Examples.constant_host 1 Examples.two_errors_text))
             self []) with (items := [JObject Examples.complete_input;
                                      JObject Examples.other_input]).
    + reflexivity.
    + reflexivity.
    + repeat constructor.
  - apply (proj1 (checker_exit_codes (Examples.constant_host 2 "[]")) self []);
      simpl; lia.
Defined.

(** ** [run_start] *)

Section Strings.

Local Open Scope string_scope.

Lemma string_app_nil (b : string) : EmptyString ++ b = b.
Proof. reflexivity. Qed.

Lemma string_app_cons (x : ascii) (a b : string) :
  String x a ++ b = String x (a ++ b).
Proof. reflexivity. Qed.

Lemma string_app_assoc (a b c : string) : (a ++ b) ++ c = a ++ (b ++ c).
Proof.
  induction a as [|x a IH]; [done|]. rewrite !string_app_cons. by f_equal.
Qed.

(** [rstrip] leaves alone what precedes the last character that is not a
    blank. *)
Lemma rstrip_app (a b : string) :
  rstrip (a ++ b) = match rstrip b with
                    | EmptyString => rstrip a
                    | kept => a ++ kept
                    end.
Proof.
  induction a as [|x a IH].
  - rewrite string_app_nil. by destruct (rstrip b).
  - rewrite string_app_cons. simpl. rewrite IH.
    destruct (rstrip b) as [|y kept]; [done|].
    rewrite string_app_cons. by destruct a.
Qed.

Lemma rstrip_ends_with_letter (a : string) (x : ascii) :
  is_space x = false -> rstrip (a ++ String x EmptyString) = a ++ String x EmptyString.
Proof. intros Hx. rewrite rstrip_app. simpl. by rewrite Hx. Qed.

End Strings.

Ltac string_normalize :=
  repeat (rewrite string_app_assoc || rewrite string_app_cons
          || rewrite string_app_nil).

Section Start.

Context (host : Host).
Implicit Types (self : Runner.PyreRunner) (tr : list Event).

(** The command of [run_start]: the invocation, the caller's two option
    strings, and between them the two flags and the subcommand
    [restart]. *)
Lemma start_command_shape self :
  Runner.start_command self
  = (Runner._pyre_invocation self ++ " "
     ++ pyre_start_pyre_options (Runner._specification self)
     ++ " --no-saved-state --enable-profiling restart"
     ++ rstrip (" " ++ pyre_start_options (Runner._specification self)))%string.
Proof.
  unfold Runner.start_command.
  set (inv := Runner._pyre_invocation self).
  set (first := pyre_start_pyre_options (Runner._specification self)).
  set (last := pyre_start_options (Runner._specification self)).
  replace (inv ++ " " ++ first ++ " " ++ "--no-saved-state --enable-profiling "
           ++ "restart " ++ last)%string
    with (((inv ++ " " ++ first ++ " --no-saved-state --enable-profiling restar")
           ++ "t") ++ (" " ++ last))%string
    by (string_normalize; reflexivity).
  rewrite rstrip_app.
  rewrite rstrip_ends_with_letter by reflexivity.
  destruct (rstrip (" " ++ last)) as [|y kept] eqn:Hkept;
    string_normalize; reflexivity.
Qed.

(** C9: [run_start] issues one command, [restart] with the flags
    [--no-saved-state] and [--enable-profiling] between the caller's start
    options, accepting the exit code 0 alone. Any other exit code is fatal
    and nothing more is run. On exit code 0 the next command is the profile
    read of [cold_start_phases], and its decoded record is returned. *)
Theorem run_start_protocol self tr :
  let wd := Runner._working_directory self in
  let started := process host tr wd (Runner.start_command self) in
  let tr1 := tr ++ [Run wd (Runner.start_command self) [0] started] in
  let read := Runner.profile_command self cold_start_phases in
  let profiled := process host tr1 wd read in
  let tr2 := tr1 ++ [Run wd read [0] profiled] in
  Runner.start_command self
  = (Runner._pyre_invocation self ++ " "
     ++ pyre_start_pyre_options (Runner._specification self)
     ++ " --no-saved-state --enable-profiling restart"
     ++ rstrip (" " ++ pyre_start_options (Runner._specification self)))%string
  /\ (return_code started <> 0 ->
      Runner.run_start host self tr
      = (Raises (ProcessError (return_code started)), tr1))
  /\ (return_code started = 0 ->
      (return_code profiled <> 0 ->
       Runner.run_start host self tr
       = (Raises (ProcessError (return_code profiled)), tr2))
      /\ (return_code profiled = 0 ->
          forall record,
            json_loads_profile host cold_start_phases (stdout profiled) = Ok record ->
            Runner.run_start host self tr = (Returns record, tr2))).
Proof.
  intros wd started tr1 read profiled tr2.
  split; [apply start_command_shape|].
  unfold Runner.run_start, Runner.default_expected_return_codes. split.
  - intros Hcode. apply bind_of_raises, checked_run_unexpected.
    fold wd started. rewrite elem_of_cons, elem_of_nil. tauto.
  - intros Hcode.
    assert (Hin : return_code started ∈ [0]) by (rewrite Hcode; constructor).
    rewrite (bind_of_returns _ _ _ _ _ (checked_run_expected host tr _ _ _ Hin)).
    unfold Runner.run_profile, Runner.default_expected_return_codes.
    fold wd read started tr1. split.
    + intros Hread. apply bind_of_raises.
      unfold run_event. fold started tr1.
      apply checked_run_unexpected.
      fold profiled. rewrite elem_of_cons, elem_of_nil. tauto.
    + intros Hread record Hrecord.
      unfold run_event. fold started tr1.
      assert (Hin' : return_code profiled ∈ [0]) by (rewrite Hread; constructor).
      rewrite (bind_of_returns _ _ _ _ _ (checked_run_expected host tr1 _ _ _ Hin')).
      fold profiled. unfold lift. by rewrite Hrecord.
Qed.

End Start.

(** The example server is started once and its cold-start record read; a
    server that exits with 3 is not started again. *)
Lemma run_start_protocol_witness :
  let self := Examples.example_runner in
  let quiet := {| return_code := 0; stdout := EmptyString |} in
  Runner.run_start (Examples.server [] quiet quiet) self []
  = (Returns ∅,
     [Run "/sandbox"
          "pyre --binary /bin/pyre.bin --debug --no-saved-state --enable-profiling restart --terminal"
          [0] quiet;
      Run "/sandbox" "pyre --binary /bin/pyre.bin profile --output=cold_start_phases"
          [0] {| return_code := 0; stdout := "{}" |}])
  /\ Runner.run_start (Examples.constant_host 3 "[]") self []
     = (Raises (ProcessError 3),
        [Run "/sandbox"
             "pyre --binary /bin/pyre.bin --debug --no-saved-state --enable-profiling restart --terminal"
             [0] {| return_code := 3; stdout := "[]" |}]).
Proof.
  intros self quiet. split.
  - apply (proj2 (proj2 (run_start_protocol (Examples.server [] quiet quiet) self [])));
      reflexivity.
  - apply (proj1 (proj2 (run_start_protocol (Examples.constant_host 3 "[]") self []))).
    simpl. lia.
Defined.

(** ** [update]: the update driver *)


Section DriverProofs.

Context (host : Host) (self : Runner.PyreRunner).
Implicit Types (tr events : list Event) (logs result : list ProfileRecord).

Let wd : Path := Runner._working_directory self.

Lemma lift_returns {X} (r : Py.result X) tr x tr' :
  lift r tr = (Returns x, tr') <-> r = Ok x /\ tr' = tr.
Proof.
  unfold lift. destruct r; split; intros H; try discriminate.
  - by injection H as <- <-.
  - destruct H as [[= <-] ->]. reflexivity.
  - by destruct H.
Qed.

(** One fetch of the update logs. *)
Lemma run_profile_returns tr logs tr' :
  Runner.run_profile host self incremental_updates tr = (Returns logs, tr') <->
  return_code (poll_output host self tr) = 0
  /\ json_loads_profile host incremental_updates (stdout (poll_output host self tr)) = Ok logs
  /\ tr' = tr ++ [poll_event host self tr].
Proof.
  unfold Runner.run_profile. rewrite bind_returns. split.
  - intros (output & tr1 & Hrun & Hlift).
    apply checked_run_returns in Hrun as (-> & Hcode & ->).
    apply lift_returns in Hlift as [Hlogs ->].
    unfold Runner.default_expected_return_codes in Hcode.
    rewrite elem_of_cons, elem_of_nil in Hcode. by destruct Hcode.
  - intros (Hcode & Hlogs & ->).
    exists (poll_output host self tr), (tr ++ [poll_event host self tr]). split.
    + apply checked_run_expected.
      unfold poll_output in Hcode. rewrite Hcode. constructor.
    + apply lift_returns. done.
Qed.

Lemma poll_unfold fuel expected tr :
  Runner.poll host (S fuel) self expected tr =
  (Runner.run_profile host self incremental_updates
   ≫= fun logs => if (expected <? length logs)%nat then mret logs
                  else Runner.sleep 1;; Runner.poll host fuel self expected) tr.
Proof. reflexivity. Qed.

(** The loop, when it ends, has polled as [polled] says. *)
Lemma poll_sound fuel expected : forall tr result tr',
  Runner.poll host fuel self expected tr = (Returns result, tr') ->
  exists events, tr' = tr ++ events /\ polled host self expected tr events result.
Proof.
  induction fuel as [|fuel IH]; intros tr result tr' H; [discriminate|].
  rewrite poll_unfold in H. apply bind_returns in H as (logs & tr1 & Hfetch & H).
  apply run_profile_returns in Hfetch as (Hcode & Hlogs & ->).
  destruct (expected <? length logs)%nat eqn:Hmore.
  - injection H as <- <-. eexists. split; [reflexivity|].
    apply polled_arrived; [done..|]. by apply Nat.ltb_lt.
  - apply bind_returns in H as ([] & tr2 & Hsleep & H).
    injection Hsleep as <-.
    apply IH in H as (events & -> & Hpolled).
    exists (poll_event host self tr :: Sleep 1 :: events). split.
    + by rewrite <- !app_assoc.
    + eapply polled_waiting; [done..| |].
      * by apply Nat.ltb_ge.
      * by rewrite <- app_assoc in Hpolled.
Qed.

(** Conversely, polls that [polled] allows are what the loop does, once it
    is given enough iterations. *)
Lemma poll_complete expected tr events result :
  polled host self expected tr events result ->
  exists enough, forall fuel, (enough <= fuel)%nat ->
    Runner.poll host fuel self expected tr = (Returns result, tr ++ events).
Proof.
  induction 1 as [tr logs Hcode Hlogs Hmore
                 |tr logs events result Hcode Hlogs Hless _ [enough IH]].
  - exists 1%nat. intros [|fuel] Hfuel; [lia|].
    rewrite poll_unfold.
    rewrite (bind_of_returns _ _ _ logs (tr ++ [poll_event host self tr]))
      by (by apply run_profile_returns).
    apply Nat.ltb_lt in Hmore. by rewrite Hmore.
  - exists (S enough). intros [|fuel] Hfuel; [lia|].
    rewrite poll_unfold.
    rewrite (bind_of_returns _ _ _ logs (tr ++ [poll_event host self tr]))
      by (by apply run_profile_returns).
    apply Nat.ltb_ge in Hless. rewrite Hless.
    rewrite (bind_of_returns _ _ _ tt ((tr ++ [poll_event host self tr]) ++ [Sleep 1]))
      by reflexivity.
    rewrite <- !app_assoc. simpl. rewrite IH by lia.
    by rewrite <- app_assoc.
Qed.

Lemma for_each_cons {X S} (x : X) xs (body : X -> S -> M S) s :
  for_each (x :: xs) body s = (body x s ≫= for_each xs body).
Proof. reflexivity. Qed.

Lemma update_unfold fuel :
  Runner.update host fuel self
  = for_each (enumerate (update_steps (new_state (Runner._specification self))))
             (update_body host self fuel) [].
Proof. reflexivity. Qed.

Lemma enumerate_from_cons {X} (k : nat) (x : X) xs :
  zip (seq k (length (x :: xs))) (x :: xs) = (k, x) :: zip (seq (S k) (length xs)) xs.
Proof. reflexivity. Qed.

Lemma drive_sound fuel : forall steps k last tr result tr',
  for_each (zip (seq k (length steps)) steps) (update_body host self fuel) last tr
  = (Returns result, tr') ->
  exists events, tr' = tr ++ events /\ driven host self k steps tr last events result.
Proof.
  induction steps as [|step steps IH]; intros k last tr result tr' H.
  - injection H as <- <-. exists []. split; [by rewrite app_nil_r | constructor].
  - rewrite enumerate_from_cons, for_each_cons in H.
    apply bind_returns in H as (logs & tr2 & Hbody & H).
    apply bind_returns in Hbody as ([] & tr1 & Hemit & Hpoll).
    injection Hemit as <-.
    apply poll_sound in Hpoll as (polls & -> & Hpolled).
    apply IH in H as (events & -> & Hdriven).
    exists (ApplyUpdate step wd :: polls ++ events). split.
    + by rewrite <- !app_assoc.
    + by econstructor.
Qed.

Lemma drive_complete k steps tr last events result :
  driven host self k steps tr last events result ->
  exists enough, forall fuel, (enough <= fuel)%nat ->
    for_each (zip (seq k (length steps)) steps) (update_body host self fuel) last tr
    = (Returns result, tr ++ events).
Proof.
  induction 1 as [k tr last
                 |k step steps tr last polls logs events result Hpolled _ [enough IH]].
  - exists 0%nat. intros fuel _. simpl. unfold ret. by rewrite app_nil_r.
  - apply poll_complete in Hpolled as [enough' Hpoll].
    exists (enough `max` enough')%nat. intros fuel Hfuel.
    rewrite enumerate_from_cons, for_each_cons.
    assert (Hbody : update_body host self fuel (k, step) last tr
                    = (Returns logs, (tr ++ [ApplyUpdate step wd]) ++ polls)).
    { unfold update_body.
      rewrite (bind_of_returns _ _ _ tt (tr ++ [ApplyUpdate step wd])) by reflexivity.
      apply Hpoll. lia. }
    rewrite (bind_of_returns _ _ _ _ _ Hbody).
    rewrite IH by lia. by rewrite <- !app_assoc.
Qed.

(** When there is a step, the driver ends on a fetch, whose logs it
    returns. *)
Lemma polled_last expected tr events result :
  polled host self expected tr events result ->
  exists earlier,
    events = earlier ++ [poll_event host self (tr ++ earlier)]
    /\ json_loads_profile host incremental_updates
         (stdout (poll_output host self (tr ++ earlier))) = Ok result.
Proof.
  induction 1 as [tr logs Hcode Hlogs Hmore
                 |tr logs events result Hcode Hlogs Hless _ (earlier & -> & IH)].
  - exists []. by rewrite app_nil_r.
  - exists (poll_event host self tr :: Sleep 1 :: earlier).
    rewrite <- app_assoc in IH. rewrite <- app_assoc. done.
Qed.

Lemma driven_last k steps tr last events result :
  driven host self k steps tr last events result ->
  steps <> [] ->
  exists earlier,
    events = earlier ++ [poll_event host self (tr ++ earlier)]
    /\ json_loads_profile host incremental_updates
         (stdout (poll_output host self (tr ++ earlier))) = Ok result.
Proof.
  induction 1 as [k tr last
                 |k step steps tr last polls logs events result Hpolled Hrest IH];
    intros Hsteps; [done|].
  destruct steps as [|next steps].
  - inversion Hrest; subst.
    apply polled_last in Hpolled as (earlier & -> & Hlogs).
    exists (ApplyUpdate step wd :: earlier).
    rewrite app_nil_r. rewrite <- app_assoc in Hlogs. simpl in Hlogs.
    rewrite <- app_assoc. done.
  - destruct IH as (earlier & -> & Hlogs); [done|].
    exists (ApplyUpdate step wd :: polls ++ earlier).
    rewrite <- !app_assoc in Hlogs. simpl in Hlogs.
    rewrite <- !app_assoc. simpl. rewrite <- !app_assoc. done.
Qed.

(** More iterations do not change a loop that ended. *)
Lemma poll_mono fuel : forall fuel' expected tr result tr',
  (fuel <= fuel')%nat ->
  Runner.poll host fuel self expected tr = (Returns result, tr') ->
  Runner.poll host fuel' self expected tr = (Returns result, tr').
Proof.
  induction fuel as [|fuel IH]; intros fuel' expected tr result tr' Hle H;
    [discriminate|].
  destruct fuel' as [|fuel']; [lia|].
  rewrite poll_unfold in H. rewrite poll_unfold.
  apply bind_returns in H as (logs & tr1 & Hfetch & H).
  rewrite (bind_of_returns _ _ _ _ _ Hfetch).
  destruct (expected <? length logs)%nat; [done|].
  apply bind_returns in H as ([] & tr2 & Hsleep & H).
  rewrite (bind_of_returns _ _ _ _ _ Hsleep).
  apply IH with (fuel' := fuel') in H; [done | lia].
Qed.

Lemma update_mono fuel fuel' tr result tr' :
  (fuel <= fuel')%nat ->
  Runner.update host fuel self tr = (Returns result, tr') ->
  Runner.update host fuel' self tr = (Returns result, tr').
Proof.
  intros Hle. rewrite !update_unfold.
  generalize (enumerate (update_steps (new_state (Runner._specification self)))).
  intros steps. generalize (@nil ProfileRecord). revert tr.
  induction steps as [|[expected step] steps IH]; intros tr last H; [done|].
  rewrite for_each_cons in H. rewrite for_each_cons.
  apply bind_returns in H as (logs & tr2 & Hbody & H).
  assert (Hbody' : update_body host self fuel' (expected, step) last tr = (Returns logs, tr2)).
  { unfold update_body in *.
    apply bind_returns in Hbody as ([] & tr1 & Hemit & Hpoll).
    rewrite (bind_of_returns _ _ _ _ _ Hemit).
    by apply poll_mono with (fuel := fuel). }
  rewrite (bind_of_returns _ _ _ _ _ Hbody'). by apply IH.
Qed.

(** A run of [update] that returns is a run of the driver. *)
Lemma update_sound fuel tr result tr' :
  Runner.update host fuel self tr = (Returns result, tr') ->
  exists events,
    tr' = tr ++ events
    /\ driven host self 0 (update_steps (new_state (Runner._specification self)))
              tr [] events result.
Proof. intros H. rewrite update_unfold in H. by apply drive_sound in H. Qed.

(** The loop has no way out but a fetch with enough logs: against an
    endpoint that never reports more than [expected] logs it does not
    end, however many iterations it is given. *)
Lemma poll_never_ends expected :
  (forall tr, return_code (poll_output host self tr) = 0
              /\ exists logs,
                   json_loads_profile host incremental_updates
                     (stdout (poll_output host self tr)) = Ok logs
                   /\ (length logs <= expected)%nat) ->
  forall fuel tr, exists tr', Runner.poll host fuel self expected tr = (Hangs, tr').
Proof.
  intros Hstuck. induction fuel as [|fuel IH]; intros tr; [by eexists|].
  destruct (Hstuck tr) as (Hcode & logs & Hlogs & Hless).
  rewrite poll_unfold.
  rewrite (bind_of_returns _ _ _ logs (tr ++ [poll_event host self tr]))
    by (by apply run_profile_returns).
  apply Nat.ltb_ge in Hless. rewrite Hless.
  rewrite (bind_of_returns _ _ _ tt ((tr ++ [poll_event host self tr]) ++ [Sleep 1]))
    by reflexivity.
  apply IH.
Qed.

End DriverProofs.

(** C7: the driver takes the steps in order with an expected count that
    starts at 0 and grows by one per step; for each step it applies the
    update, then fetches the update logs until there are more of them than
    expected, sleeping one second after every fetch that is not enough;
    it returns the logs fetched last. Every run of [update] that returns
    has this shape, every such run is what [update] does once its loop is
    given enough iterations, and when there is a step the run ends on the
    fetch whose logs are returned. *)
Theorem update_driver (host : Host) (self : Runner.PyreRunner)
    (tr : list Event) (result : list ProfileRecord) :
  let steps := update_steps (new_state (Runner._specification self)) in
  (forall fuel tr',
      Runner.update host fuel self tr = (Returns result, tr') ->
      exists events, tr' = tr ++ events /\ driven host self 0 steps tr [] events result)
  /\ (forall events,
        driven host self 0 steps tr [] events result ->
        (exists enough, forall fuel, (enough <= fuel)%nat ->
            Runner.update host fuel self tr = (Returns result, tr ++ events))
        /\ (steps <> [] ->
            exists earlier,
              events = earlier ++ [poll_event host self (tr ++ earlier)]
              /\ json_loads_profile host incremental_updates
                   (stdout (poll_output host self (tr ++ earlier))) = Ok result)).
Proof.
  intros steps. split.
  - intros fuel tr' H. by apply update_sound in H.
  - intros events Hdriven. split.
    + destruct (drive_complete _ _ _ _ _ _ _ _ Hdriven) as [enough H].
      exists enough. intros fuel Hfuel. rewrite update_unfold. by apply H.
    + by apply (driven_last _ _ _ _ _ _ _ _ Hdriven).
Qed.

(** The run against the slow server has the shape of the driver. *)
Lemma update_driver_witness :
  exists events,
    Examples.slow_trace = [] ++ events
    /\ driven Examples.slow_server Examples.example_runner 0
              ["first"; "second"; "third"] [] [] events [∅; ∅; ∅].
Proof.
  apply (proj1 (update_driver Examples.slow_server Examples.example_runner []
                              [∅; ∅; ∅]) 3%nat Examples.slow_trace).
  vm_compute. reflexivity.
Defined.

(** C8 (as amended): with three steps and an endpoint that reports 0, 0,
    1, 1, 2 and 3 update logs, the driver polls six times, three times
    more than once per step (twice more for the first step, once more for
    the second, not for the third), and returns three logs. *)
Theorem update_slow_polls (fuel : nat) :
  (3 <= fuel)%nat ->
  Runner.update Examples.slow_server fuel Examples.example_runner []
  = (Returns [∅; ∅; ∅], Examples.slow_trace)
  /\ times_run Examples.update_logs_command Examples.slow_trace = 6%nat
  /\ extra_polls Examples.example_runner Examples.slow_trace = 3%nat.
Proof.
  intros Hfuel. split; [|split; reflexivity].
  apply update_mono with (fuel := 3%nat); [done|]. vm_compute. reflexivity.
Qed.

Lemma update_slow_polls_witness :
  Runner.update Examples.slow_server 3 Examples.example_runner []
  = (Returns [∅; ∅; ∅], Examples.slow_trace)
  /\ times_run Examples.update_logs_command Examples.slow_trace = 6%nat
  /\ extra_polls Examples.example_runner Examples.slow_trace = 3%nat.
Proof. apply (update_slow_polls 3). lia. Defined.

(** C8 as written fails: the polls beyond one per step are not two. *)
Lemma update_slow_polls_counterexample :
  Runner.update Examples.slow_server 3 Examples.example_runner []
  = (Returns [∅; ∅; ∅], Examples.slow_trace)
  /\ extra_polls Examples.example_runner Examples.slow_trace <> 2%nat.
Proof. split; [vm_compute; reflexivity | vm_compute; discriminate]. Qed.

(** ** [compare_server_to_full] *)

Section Compare.

Context (host : Host).
Implicit Types (self : Runner.PyreRunner) (tr : list Event).

Lemma read_errors_trace output tr ended tr' :
  Runner.read_errors host output tr = (ended, tr') -> tr' = tr.
Proof.
  unfold Runner.read_errors. destruct (return_code output =? 0).
  - by intros [= _ <-].
  - unfold lift. destruct (_ ≫= _); by intros [= _ <-].
Qed.

Lemma run_check_returns self tr errors tr' :
  Runner.run_check host self tr = (Returns errors, tr') ->
  tr' = tr ++ [run_event host tr (Runner._working_directory self)
                 (Runner.check_command self) [0; 1]].
Proof.
  unfold Runner.run_check. intros H.
  apply bind_returns in H as (output & tr1 & Hrun & Hread).
  apply checked_run_returns in Hrun as (_ & _ & ->).
  by apply read_errors_trace in Hread.
Qed.

Lemma run_incremental_returns self tr errors tr' :
  Runner.run_incremental host self tr = (Returns errors, tr') ->
  tr' = tr ++ [run_event host tr (Runner._working_directory self)
                 (Runner.incremental_command self) [0; 1]].
Proof.
  unfold Runner.run_incremental. intros H.
  apply bind_returns in H as (output & tr1 & Hrun & Hread).
  apply checked_run_returns in Hrun as (_ & _ & ->).
  by apply read_errors_trace in Hread.
Qed.

Lemma run_stop_returns self tr tr' :
  Runner.run_stop host self tr = (Returns tt, tr') ->
  tr' = tr ++ [run_event host tr (Runner._working_directory self)
                 (Runner.stop_command self) [0]].
Proof.
  unfold Runner.run_stop. intros H.
  apply bind_returns in H as (output & tr1 & Hrun & Hret).
  apply checked_run_returns in Hrun as (_ & _ & ->).
  by injection Hret as <-.
Qed.

(** The steps of a run of the [with] block that returns. *)
Lemma measure_returns fuel self tr measured tr' :
  Runner.measure host fuel self tr = (Returns measured, tr') ->
  exists tr1 tr2 tr3 tr4 tr6,
    Runner.run_start host self tr = (Returns (Runner.cold_start_log measured), tr1)
    /\ Runner.update host fuel self tr1
       = (Returns (Runner.incremental_update_logs measured), tr2)
    /\ Runner.run_incremental host self tr2
       = (Returns (Runner.incremental_check_output measured), tr3)
    /\ Runner.run_stop host self tr3 = (Returns tt, tr4)
    /\ Runner.run_check host self (tr4 ++ [Time (clock host tr4)])
       = (Returns (Runner.full_check_output measured), tr6)
    /\ Runner.full_check_time measured
       = elapsed_ms host (clock host tr4) (clock host tr6)
    /\ tr' = tr6 ++ [Time (clock host tr6)].
Proof.
  unfold Runner.measure. intros H.
  apply bind_returns in H as (cold & tr1 & Hstart & H).
  apply bind_returns in H as (logs & tr2 & Hupdate & H).
  apply bind_returns in H as (inc & tr3 & Hinc & H).
  apply bind_returns in H as ([] & tr4 & Hstop & H).
  apply bind_returns in H as (start_time & tr5 & Htime & H).
  injection Htime as <- <-.
  apply bind_returns in H as (full & tr6 & Hcheck & H).
  apply bind_returns in H as (stop_time & tr7 & Htime & H).
  injection Htime as <- <-.
  injection H as <- <-. simpl.
  by exists tr1, tr2, tr3, tr4, tr6.
Qed.

Lemma compare_returns fuel environment specification tr comparison tr' :
  Runner.compare_server_to_full host fuel environment specification tr
  = (Returns comparison, tr') ->
  let root := sandbox host tr in
  exists measured tr0,
    Runner.measure host fuel (Runner.__init__ environment specification root)
                   (tr ++ [SandboxEnter root]) = (Returns measured, tr0)
    /\ tr' = tr0 ++ [SandboxExit root]
    /\ comparison = Runner.verdict measured.
Proof.
  intros H root. unfold Runner.compare_server_to_full in H.
  apply bind_returns in H as (measured & tr1 & Hwith & H).
  injection H as <- <-.
  unfold Runner._create_pyre_runner, Runner.activate_sandbox in Hwith.
  fold root in Hwith.
  destruct (Runner.measure _ _ _ _) as [[m| |] tr0] eqn:Hmeasure; try discriminate.
  injection Hwith as <- <-. by exists m, tr0.
Qed.

Lemma run_start_returns self tr record tr' :
  Runner.run_start host self tr = (Returns record, tr') ->
  let wd := Runner._working_directory self in
  let started := run_event host tr wd (Runner.start_command self) [0] in
  tr' = tr ++ [started;
               run_event host (tr ++ [started]) wd
                         (Runner.profile_command self cold_start_phases) [0]].
Proof.
  intros H wd started. unfold Runner.run_start, Runner.run_profile in H.
  apply bind_returns in H as (output & tr1 & Hrun & H).
  apply checked_run_returns in Hrun as (_ & _ & ->).
  apply bind_returns in H as (profiled & tr2 & Hrun & H).
  apply checked_run_returns in Hrun as (_ & _ & ->).
  apply lift_returns in H as [_ ->].
  by rewrite <- app_assoc.
Qed.

(** C2 (as amended): a run of [compare_server_to_full] that returns
    opens the sandbox, starts the server and reads its cold-start record,
    drives the updates, runs the incremental check, stops the server, and
    then, still inside the sandbox, reads the clock, runs the full check
    and reads the clock again; leaving the sandbox is the last thing that
    happens, and the time reported is the one between the two readings. *)
Theorem full_check_inside_sandbox fuel environment specification tr comparison tr' :
  Runner.compare_server_to_full host fuel environment specification tr
  = (Returns comparison, tr') ->
  sandboxed_protocol host environment specification tr comparison tr'.
Proof.
  intros H. unfold sandboxed_protocol.
  set (root := sandbox host tr).
  set (self := Runner.__init__ environment specification root).
  apply compare_returns in H as (measured & tr0 & Hmeasure & -> & ->).
  fold root self in Hmeasure.
  apply measure_returns in Hmeasure
    as (tr1 & tr2 & tr3 & tr4 & tr6 & Hstart & Hupdate & Hinc & Hstop & Hcheck & Htime & ->).
  apply run_start_returns in Hstart. cbn zeta in Hstart. subst tr1.
  apply update_sound in Hupdate as (updated & -> & Hdriven).
  apply run_incremental_returns in Hinc. subst tr3.
  apply run_stop_returns in Hstop. subst tr4.
  apply run_check_returns in Hcheck. subst tr6.
  unfold run_event in *. cbn [Runner._working_directory Runner.__init__ self] in *.
  rewrite <- !app_assoc in *. simpl in *.
  do 9 eexists. split; [reflexivity|]. split; [exact Hdriven|].
  split; [reflexivity|]. rewrite Htime. simpl. reflexivity.
Qed.

(** What is compared: the lists of errors the two checks returned. *)
Lemma errors_eq_refl (errors : list PyreError.t) :
  Forall PyreError.well_typed errors -> errors_eq errors errors = true.
Proof.
  induction 1 as [|[line column path description] errors [[p Hp] [d Hd]] _ IH];
    [done|].
  simpl in Hp, Hd. subst. simpl. unfold PyreError.eq. simpl.
  rewrite !Z.eqb_refl, !bool_decide_eq_true_2 by done. done.
Qed.

Lemma errors_eq_true (a b : list PyreError.t) :
  Forall PyreError.well_typed a -> errors_eq a b = true -> a = b.
Proof.
  intros Ha. revert b.
  induction Ha as [|[line column path description] a [[p Hp] [d Hd]] _ IH];
    intros [|[line' column' path' description'] b] H; try done.
  simpl in Hp, Hd. subst. simpl in H. unfold PyreError.eq in H. simpl in H.
  repeat (apply andb_prop in H as [H ?]).
  destruct path'; try done. destruct description'; try done.
  repeat match goal with
         | E : bool_decide _ = true |- _ => apply bool_decide_eq_true_1 in E
         | E : (_ =? _) = true |- _ => apply Z.eqb_eq in E
         end.
  subst. f_equal. by apply IH.
Qed.

(** The comparison is sensitive to the order of the errors. *)
Lemma errors_eq_order :
  errors_eq [Examples.error_a; Examples.error_b] [Examples.error_b; Examples.error_a]
  = false.
Proof. reflexivity. Qed.

(** C1: in the result of [compare_server_to_full] the discrepancy is
    decided by [==] on the list of errors of the incremental check and the
    list of errors of the full check. For records whose fields have the
    declared types, there is no discrepancy exactly when the two lists are
    equal, element by element and in order; when they differ, the
    discrepancy holds the two lists as they are. *)
Theorem discrepancy_iff_outputs_differ fuel environment specification tr comparison tr' :
  Runner.compare_server_to_full host fuel environment specification tr
  = (Returns comparison, tr') ->
  discrepancy_reflects_outputs host environment specification tr comparison tr'.
Proof.
  intros H. unfold discrepancy_reflects_outputs.
  apply compare_returns in H as (measured & tr0 & Hmeasure & -> & ->).
  apply measure_returns in Hmeasure
    as (tr1 & tr2 & tr3 & tr4 & tr6 & Hstart & Hupdate & Hinc & Hstop & Hcheck & _ & ->).
  exists tr2, tr3, (tr4 ++ [Time (clock host tr4)]), tr6.
  exists (Runner.incremental_check_output measured), (Runner.full_check_output measured).
  split.
  { apply run_start_returns in Hstart. cbn zeta in Hstart.
    apply update_sound in Hupdate as (updated & -> & _).
    subst tr1. rewrite <- !app_assoc. apply prefix_app_r. reflexivity. }
  split; [exact Hinc|]. split.
  { apply run_stop_returns in Hstop. subst tr4. rewrite <- app_assoc.
    apply prefix_app_r. reflexivity. }
  split; [exact Hcheck|].
  split; [rewrite <- app_assoc; apply prefix_app_r; reflexivity|].
  split; [reflexivity|]. intros Hti Htf. simpl.
  destruct (errors_eq _ _) eqn:Heq.
  - apply errors_eq_true in Heq; [|done]. split; [done|]. intros Hne. by destruct Hne.
  - split; [|done]. split; [discriminate|].
    intros Hsame. rewrite Hsame, errors_eq_refl in Heq; done.
Qed.

End Compare.

(** The run against the server whose checks differ follows the protocol. *)
Lemma full_check_inside_sandbox_witness :
  exists comparison tr',
    Runner.compare_server_to_full Examples.differing_server 3
      Examples.example_environment Examples.example_specification []
    = (Returns comparison, tr')
    /\ sandboxed_protocol Examples.differing_server Examples.example_environment
         Examples.example_specification [] comparison tr'.
Proof.
  eexists. eexists. split; [vm_compute; reflexivity|].
  apply (full_check_inside_sandbox Examples.differing_server 3).
  vm_compute. reflexivity.
Defined.

(** C2 as written fails: in this run the full check is not issued after
    the sandbox is released; the release is the last event. *)
Lemma full_check_inside_sandbox_counterexample :
  exists comparison tr',
    Runner.compare_server_to_full Examples.differing_server 3
      Examples.example_environment Examples.example_specification []
    = (Returns comparison, tr')
    /\ run_after_release
         (Runner.check_command Examples.example_runner) false tr' = false
    /\ last tr' = Some (SandboxExit "/sandbox").
Proof.
  eexists. eexists. split; [vm_compute; reflexivity|].
  split; vm_compute; reflexivity.
Qed.

(** Against the server whose checks differ the discrepancy holds the two
    lists; against the server whose checks agree there is none. *)
Lemma discrepancy_iff_outputs_differ_witness :
  (exists comparison tr',
      Runner.compare_server_to_full Examples.differing_server 3
        Examples.example_environment Examples.example_specification []
      = (Returns comparison, tr')
      /\ ResultComparison.discrepancy comparison
         = Some (InconsistentOutput.make [Examples.error_a; Examples.error_b]
                                         [Examples.error_a])
      /\ discrepancy_reflects_outputs Examples.differing_server
           Examples.example_environment Examples.example_specification []
           comparison tr')
  /\ (exists comparison tr',
        Runner.compare_server_to_full Examples.agreeing_server 3
          Examples.example_environment Examples.example_specification []
        = (Returns comparison, tr')
        /\ ResultComparison.discrepancy comparison = None
        /\ discrepancy_reflects_outputs Examples.agreeing_server
             Examples.example_environment Examples.example_specification []
             comparison tr').
Proof.
  split.
  - eexists. eexists. split; [vm_compute; reflexivity|].
    split; [reflexivity|].
    apply (discrepancy_iff_outputs_differ Examples.differing_server 3
             Examples.example_environment Examples.example_specification []).
    vm_compute. reflexivity.
  - eexists. eexists. split; [vm_compute; reflexivity|].
    split; [reflexivity|].
    apply (discrepancy_iff_outputs_differ Examples.agreeing_server 3
             Examples.example_environment Examples.example_specification []).
    vm_compute. reflexivity.
Defined.

(** * Further properties

    Properties of the parts of [runner.py] that the claims leave out. *)

(** ** Records and their JSON *)

Section RecordsAndJson.

Implicit Types (d : gmap string json) (e : PyreError.t).

Lemma from_json_asdict e : PyreError.from_json (PyreError.asdict e) = Ok e.
Proof.
  destruct e as [line column path description].
  unfold PyreError.asdict. rewrite from_json_dict. by simplify_map_eq.
Qed.

Lemma comprehension_asdict (errors : list PyreError.t) :
  comprehension PyreError.from_json (PyreError.asdict <$> errors) = Ok errors.
Proof.
  induction errors as [|e errors IH]; [done|].
  rewrite fmap_cons. cbn [comprehension].
  rewrite from_json_asdict. cbn [result_bind]. by rewrite IH.
Qed.

(** X1: what [InconsistentOutput.to_json] writes can be read back: the two
    arrays it stores under ["full_check_output"] and
    ["incremental_check_output"], mapped through [PyreError.from_json],
    are the two lists of errors it was given. *)
Theorem inconsistent_output_read_back (output : InconsistentOutput.t) :
  exists full_items incremental_items,
    InconsistentOutput.to_json output !! "full_check_output"
    = Some (JArray full_items)
    /\ InconsistentOutput.to_json output !! "incremental_check_output"
       = Some (JArray incremental_items)
    /\ comprehension PyreError.from_json full_items
       = Ok (InconsistentOutput.full_check_output output)
    /\ comprehension PyreError.from_json incremental_items
       = Ok (InconsistentOutput.incremental_check_output output).
Proof.
  exists (PyreError.asdict <$> InconsistentOutput.full_check_output output),
         (PyreError.asdict <$> InconsistentOutput.incremental_check_output output).
  unfold InconsistentOutput.to_json.
  split; [by simplify_map_eq|]. split; [by simplify_map_eq|].
  split; apply comprehension_asdict.
Qed.

(** X2: [from_json] reads the four keys and nothing else: a key that is
    not one of them can be added to the input, or changed, without
    changing the outcome. *)
Theorem from_json_ignores_other_keys d (key : string) (value : json) :
  key ∉ required_keys ->
  PyreError.from_json (JObject (<[key := value]> d)) = PyreError.from_json (JObject d).
Proof.
  unfold required_keys. rewrite !not_elem_of_cons. intros (Hl & Hc & Hp & Hd & _).
  rewrite !from_json_dict.
  rewrite !(lookup_insert_ne d key) by done. reflexivity.
Qed.

Lemma from_json_ignores_other_keys_witness :
  PyreError.from_json (JObject MoreExamples.verbose_input)
  = PyreError.from_json
      (JObject (<["name" := JString "Undefined attribute"]> Examples.complete_input)).
Proof.
  apply (from_json_ignores_other_keys _ "code" (JInt 16)).
  unfold required_keys. rewrite !not_elem_of_cons, elem_of_nil.
  repeat split; discriminate || tauto.
Defined.

End RecordsAndJson.

Section TotalsAndKeys.

Import ProfileLogs.

Lemma sum_totals_shift (logs : list ProfileRecord) : forall acc total shift,
  sum_totals acc logs = Ok total -> sum_totals (acc + shift) logs = Ok (total + shift).
Proof.
  induction logs as [|log logs IH]; simpl; intros acc total shift H.
  - by injection H as <-.
  - destruct (log !! "total") as [t|]; [|discriminate].
    replace (acc + shift + t) with (acc + t + shift) by lia. by apply IH.
Qed.

Lemma sum_totals_app (first second : list ProfileRecord) : forall acc,
  sum_totals acc (first ++ second)
  = match sum_totals acc first with
    | Ok total => sum_totals total second
    | Raise e => Raise e
    end.
Proof.
  induction first as [|log first IH]; simpl; intros acc; [done|].
  destruct (log !! "total"); [apply IH | done].
Qed.

(** X3: totals add up over concatenation, whatever the cold-start logs
    are: when the update logs are split in two, the total of the whole is
    the sum of the totals of the parts; when a part has a record without
    ["total"], the whole has none either. *)
Theorem total_of_totals_app (first second : list ProfileRecord)
    (cold cold' cold'' : ProfileRecord) :
  (forall a b,
      total_of_totals (make first cold) = Ok a ->
      total_of_totals (make second cold') = Ok b ->
      total_of_totals (make (first ++ second) cold'') = Ok (a + b))
  /\ (forall e,
        total_of_totals (make first cold) = Raise e
        \/ total_of_totals (make second cold') = Raise e ->
        total_of_totals (make (first ++ second) cold'') = Raise (KeyError "total")).
Proof.
  unfold total_of_totals. simpl. split.
  - intros a b Ha Hb. rewrite sum_totals_app, Ha.
    apply (sum_totals_shift _ 0 b a) in Hb. by rewrite Z.add_comm.
  - intros e H. apply sum_totals_missing.
    assert (Hmissing : forall logs : list ProfileRecord,
               sum_totals 0 logs = Raise e ->
               exists log : ProfileRecord, log ∈ logs /\ log !! "total" = None).
    { intros logs. generalize 0. induction logs as [|log logs IH]; simpl;
        intros acc Hlogs; [discriminate|].
      destruct (log !! "total") as [t|] eqn:Hlog.
      - destruct (IH _ Hlogs) as (bad & Hin & Hbad).
        exists bad. split; [by apply list_elem_of_further | done].
      - exists log. split; [apply list_elem_of_here | done]. }
    destruct H as [H|H]; apply Hmissing in H as (bad & Hin & Hbad);
      exists bad; (split; [|done]); apply elem_of_app; auto.
Qed.

Lemma total_of_totals_app_witness :
  total_of_totals
    (make ([ {["total" := 3]} ] ++ [ {["total" := 4; "parse" := 1]} ]) ∅) = Ok (3 + 4)
  /\ total_of_totals
       (make ([ {["total" := 3]} ] ++ [ {["parse" := 1]}; {["total" := 4]} ]) ∅)
     = Raise (KeyError "total").
Proof.
  split.
  - apply (proj1 (total_of_totals_app _ _ ∅ ∅ ∅)); reflexivity.
  - apply (proj2 (total_of_totals_app [ {["total" := 3]} ]
                    [ {["parse" := 1]}; {["total" := 4]} ] ∅ ∅ ∅) (KeyError "total")).
    right. reflexivity.
Defined.

(** X4: the keys of the JSON of a comparison are fixed: asked not to show
    the discrepancy, [to_json] binds ["full_check_time"],
    ["incremental_check_time"] and ["profile_logs"] and nothing else;
    otherwise it returns the same dict with the one key ["discrepancy"]
    added. The profile logs are a dict with the two keys
    ["incremental_update_logs"] and ["cold_start_log"], the first bound to
    an array with one element per update log. *)
Theorem to_json_keys (self : ResultComparison.t) (total : Z) :
  total_of_totals (ResultComparison.profile_logs self) = Ok total ->
  exists result shown profiles updates,
    ResultComparison.to_json self true = Ok result
    /\ dom result = {["full_check_time"; "incremental_check_time"; "profile_logs"]}
    /\ ResultComparison.to_json self false = Ok (<["discrepancy" := shown]> result)
    /\ result !! "profile_logs" = Some (JObject profiles)
    /\ dom profiles = {["incremental_update_logs"; "cold_start_log"]}
    /\ profiles !! "incremental_update_logs" = Some (JArray updates)
    /\ length updates
       = length (incremental_update_logs (ResultComparison.profile_logs self)).
Proof.
  intros Htotal. unfold ResultComparison.to_json. rewrite Htotal.
  eexists. eexists. eexists. eexists.
  split; [reflexivity|]. split.
  { rewrite !dom_insert_L, dom_empty_L. set_solver. }
  split; [reflexivity|].
  split; [by simplify_map_eq|]. split.
  { unfold to_json. rewrite !dom_insert_L, dom_empty_L. set_solver. }
  split; [unfold to_json; by simplify_map_eq|].
  by rewrite length_fmap.
Qed.

Lemma to_json_keys_witness :
  exists result shown profiles updates,
    ResultComparison.to_json Examples.differing_comparison true = Ok result
    /\ dom result = {["full_check_time"; "incremental_check_time"; "profile_logs"]}
    /\ ResultComparison.to_json Examples.differing_comparison false
       = Ok (<["discrepancy" := shown]> result)
    /\ result !! "profile_logs" = Some (JObject profiles)
    /\ dom profiles = {["incremental_update_logs"; "cold_start_log"]}
    /\ profiles !! "incremental_update_logs" = Some (JArray updates)
    /\ length updates = 2%nat.
Proof. apply (to_json_keys Examples.differing_comparison 7). reflexivity. Defined.

End TotalsAndKeys.

(** ** The commands *)

Section Commands.

Local Open Scope string_scope.
Implicit Types (self : Runner.PyreRunner).

Lemma string_app_nil_r (a : string) : a ++ EmptyString = a.
Proof. induction a as [|x a IH]; [done|]. rewrite string_app_cons. by f_equal. Qed.

(** X5: the invocation that [__init__] assembles is the client override,
    or [pyre] without one, followed by the [--binary] flag and then the
    [--typeshed] flag of the overrides that are set; an override that is
    the empty string counts as not set, so two environments whose
    overrides differ only in that way give the same invocation. *)
Theorem invocation_shape (environment : Environment)
    (specification : Specification) (working_directory : Path) :
  Runner._pyre_invocation (Runner.__init__ environment specification working_directory)
  = default "pyre" (effective (pyre_client_override environment))
    ++ flag " --binary " (pyre_binary_override environment)
    ++ flag " --typeshed " (typeshed_override environment)
  /\ forall environment' specification' working_directory',
       effective (pyre_client_override environment)
       = effective (pyre_client_override environment') ->
       effective (pyre_binary_override environment)
       = effective (pyre_binary_override environment') ->
       effective (typeshed_override environment)
       = effective (typeshed_override environment') ->
       Runner._pyre_invocation
         (Runner.__init__ environment specification working_directory)
       = Runner._pyre_invocation
           (Runner.__init__ environment' specification' working_directory').
Proof.
  assert (Hshape : forall env spec wd,
             Runner._pyre_invocation (Runner.__init__ env spec wd)
             = default "pyre" (effective (pyre_client_override env))
               ++ flag " --binary " (pyre_binary_override env)
               ++ flag " --typeshed " (typeshed_override env)).
  { intros [client binary typeshed] spec wd.
    destruct client as [[|c1 s1]|], binary as [[|c2 s2]|], typeshed as [[|c3 s3]|];
      cbv [Runner.__init__ Runner._pyre_invocation flag effective truthy
           default from_option id pyre_client_override pyre_binary_override
           typeshed_override];
      string_normalize; rewrite ?string_app_nil_r; reflexivity. }
  split; [apply Hshape|].
  intros environment' specification' working_directory' Hc Hb Ht.
  rewrite !Hshape. unfold flag. by rewrite Hc, Hb, Ht.
Qed.

Lemma invocation_shape_witness :
  Runner._pyre_invocation
    (Runner.__init__ MoreExamples.full_environment Examples.example_specification "/s")
  = "buck run pyre -- --binary /bin/pyre.bin --typeshed /typeshed"
  /\ Runner._pyre_invocation
       (Runner.__init__ MoreExamples.blank_environment Examples.example_specification "/s")
     = Runner._pyre_invocation
         (Runner.__init__ {| pyre_client_override := None;
                             pyre_binary_override := None;
                             typeshed_override := None |}
                          Examples.example_specification "/other").
Proof.
  split.
  - apply (proj1 (invocation_shape MoreExamples.full_environment
                    Examples.example_specification "/s")).
  - apply (proj2 (invocation_shape MoreExamples.blank_environment
                    Examples.example_specification "/s")); reflexivity.
Defined.

(** A command that ends on a word keeps everything up to that word. *)
Lemma rstrip_after_word (prefix : string) (last : ascii) (options : string) :
  is_space last = false ->
  rstrip (prefix ++ String last (" " ++ options))
  = prefix ++ String last (rstrip (" " ++ options)).
Proof.
  intros Hlast.
  replace (prefix ++ String last (" " ++ options))
    with ((prefix ++ String last EmptyString) ++ (" " ++ options))
    by (string_normalize; reflexivity).
  rewrite rstrip_app, rstrip_ends_with_letter by done.
  destruct (rstrip (" " ++ options)); string_normalize; reflexivity.
Qed.

(** X6: whatever the option strings of the specification are, the check
    command and the incremental command are the invocation, the
    pyre-options, the flags [--output=json --noninteractive] and the
    subcommand, followed by the options with the blanks at their end
    removed; the profile command is the invocation followed by
    [profile --output=] and the name of the kind. *)
Theorem command_shapes self (kind : OutputKind) :
  Runner.check_command self
  = Runner._pyre_invocation self ++ " "
    ++ pyre_check_pyre_options (Runner._specification self)
    ++ " --output=json --noninteractive check"
    ++ rstrip (" " ++ pyre_check_options (Runner._specification self))
  /\ Runner.incremental_command self
     = Runner._pyre_invocation self ++ " "
       ++ pyre_incremental_pyre_options (Runner._specification self)
       ++ " --output=json --noninteractive incremental"
       ++ rstrip (" " ++ pyre_incremental_options (Runner._specification self))
  /\ Runner.profile_command self kind
     = Runner._pyre_invocation self ++ " profile --output=" ++ kind_name kind.
Proof.
  split; [|split].
  - unfold Runner.check_command.
    set (inv := Runner._pyre_invocation self).
    set (first := pyre_check_pyre_options (Runner._specification self)).
    set (last := pyre_check_options (Runner._specification self)).
    replace (inv ++ " " ++ first ++ " " ++ "--output=json " ++ "--noninteractive "
             ++ "check " ++ last)
      with ((inv ++ " " ++ first ++ " --output=json --noninteractive chec")
            ++ String "k" (" " ++ last))
      by (string_normalize; reflexivity).
    rewrite rstrip_after_word by reflexivity. string_normalize. reflexivity.
  - unfold Runner.incremental_command.
    set (inv := Runner._pyre_invocation self).
    set (first := pyre_incremental_pyre_options (Runner._specification self)).
    set (last := pyre_incremental_options (Runner._specification self)).
    replace (inv ++ " " ++ first ++ " " ++ "--output=json " ++ "--noninteractive "
             ++ "incremental " ++ last)
      with ((inv ++ " " ++ first ++ " --output=json --noninteractive incrementa")
            ++ String "l" (" " ++ last))
      by (string_normalize; reflexivity).
    rewrite rstrip_after_word by reflexivity. string_normalize. reflexivity.
  - unfold Runner.profile_command.
    set (inv := Runner._pyre_invocation self).
    destruct kind; cbn [kind_name].
    + replace (inv ++ " " ++ "profile --output=" ++ "incremental_updates")
        with ((inv ++ " profile --output=incremental_update") ++ String "s" EmptyString)
        by (string_normalize; reflexivity).
      rewrite rstrip_ends_with_letter by reflexivity. string_normalize. reflexivity.
    + replace (inv ++ " " ++ "profile --output=" ++ "cold_start_phases")
        with ((inv ++ " profile --output=cold_start_phase") ++ String "s" EmptyString)
        by (string_normalize; reflexivity).
      rewrite rstrip_ends_with_letter by reflexivity. string_normalize. reflexivity.
Qed.

Lemma ends_with_space_rstrip (s : string) : ends_with_space (rstrip s) = false.
Proof.
  induction s as [|c s IH]; [done|]. simpl.
  destruct (rstrip s) as [|y kept].
  - destruct (is_space c) eqn:Hc; [done|]. simpl. exact Hc.
  - exact IH.
Qed.

Lemma ends_with_space_app (a b : string) :
  b <> EmptyString -> ends_with_space (a ++ b) = ends_with_space b.
Proof.
  intros Hb. induction a as [|c a IH]; [done|].
  rewrite string_app_cons. cbn [ends_with_space]. rewrite IH.
  destruct (a ++ b) eqn:Hab; [|done].
  destruct a, b; try done; by rewrite ?string_app_cons in Hab.
Qed.

(** X7: no command the runner issues ends with a blank, whatever the
    overrides and the option strings are (an empty or blank option string
    leaves no trailing separator behind). *)
Theorem commands_end_on_a_word self (kind : OutputKind) :
  ends_with_space (Runner.check_command self) = false
  /\ ends_with_space (Runner.incremental_command self) = false
  /\ ends_with_space (Runner.start_command self) = false
  /\ ends_with_space (Runner.profile_command self kind) = false
  /\ ends_with_space (Runner.stop_command self) = false.
Proof.
  repeat split; try apply ends_with_space_rstrip.
  unfold Runner.stop_command. by rewrite ends_with_space_app.
Qed.

End Commands.

(** ** Failures of the checks *)

Section CheckFailures.

Context (host : Host).
Implicit Types (self : Runner.PyreRunner) (tr : list Event).

Lemma comprehension_first_bad {X Y} (f : X -> result Y) good bad rest ys e :
  Forall2 (fun x y => f x = Ok y) good ys ->
  f bad = Raise e ->
  comprehension f (good ++ bad :: rest) = Raise e.
Proof.
  intros Hgood Hbad. induction Hgood as [|x y good ys Hx _ IH]; simpl.
  - by rewrite Hbad.
  - by rewrite Hx, IH.
Qed.

Lemma read_errors_all_or_nothing run command :
  (forall self,
      run self
      = (Runner.checked_run host (Runner._working_directory self) (command self) [0; 1]
           ≫= Runner.read_errors host)) ->
  all_or_nothing host run command.
Proof.
  intros Hrun self tr output tr' Hcode. rewrite Hrun.
  assert (Hin : return_code output ∈ [0; 1]) by (rewrite Hcode; repeat constructor).
  rewrite (bind_of_returns _ _ _ _ _ (checked_run_expected host tr _ _ _ Hin)).
  fold output. unfold Runner.read_errors, run_event. fold output tr'.
  rewrite Hcode. cbn [Z.eqb Pos.eqb]. unfold lift. split.
  - intros e Hloads. by rewrite Hloads.
  - intros good bad rest records e Hloads Hgood Hbad. rewrite Hloads.
    cbn [mbind result_mbind result_bind py_iter].
    by rewrite (comprehension_first_bad _ _ _ _ _ _ Hgood Hbad).
Qed.

(** X8: at exit code 1 [run_check] and [run_incremental] return all the
    records or none. An output that [json.loads] cannot decode raises the
    decoder's error; an array in which some element is rejected by
    [from_json] raises the error of the first such element, and the
    records of the elements before it are dropped. *)
Theorem checks_return_all_or_nothing :
  all_or_nothing host (Runner.run_check host) Runner.check_command
  /\ all_or_nothing host (Runner.run_incremental host) Runner.incremental_command.
Proof. split; apply read_errors_all_or_nothing; reflexivity. Qed.

End CheckFailures.

(** An array whose second element has no path gives no record at all, and
    an output that is no JSON gives the decoder's error. *)
Lemma checks_return_all_or_nothing_witness :
  let self := Examples.example_runner in
  Runner.run_check MoreExamples.incomplete_host self []
  = (Raises (MalformedPyreOutputException (PyreError.missing_key_message "path")),
     [Run "/sandbox" (Runner.check_command self) [0; 1]
          {| return_code := 1; stdout := MoreExamples.incomplete_text |}])
  /\ Runner.run_incremental (Examples.constant_host 1 "Traceback") self []
     = (Raises JSONDecodeError,
        [Run "/sandbox" (Runner.incremental_command self) [0; 1]
             {| return_code := 1; stdout := "Traceback" |}]).
Proof.
  intros self. split.
  - apply (proj2 (proj1 (checks_return_all_or_nothing MoreExamples.incomplete_host)
                    self [] eq_refl)
             [JObject Examples.complete_input] (JObject Examples.no_path_input)
             [JObject Examples.other_input] [Examples.error_a]).
    + reflexivity.
    + repeat constructor.
    + reflexivity.
  - apply (proj1 (proj2 (checks_return_all_or_nothing (Examples.constant_host 1 "Traceback"))
                    self [] eq_refl)).
    reflexivity.
Defined.

(** ** More on the update driver *)

Section DriverFacts.

Context (host : Host) (self : Runner.PyreRunner).
Implicit Types (tr events : list Event) (logs result : list ProfileRecord).

Let wd : Path := Runner._working_directory self.
Let steps : list string := update_steps (new_state (Runner._specification self)).

Lemma applied_steps_app tr events :
  applied_steps (tr ++ events) = applied_steps tr ++ applied_steps events.
Proof. induction tr as [|[] tr IH]; simpl; by rewrite ?IH. Qed.

Lemma count_runs_app tr events :
  count_runs (tr ++ events) = (count_runs tr + count_runs events)%nat.
Proof. induction tr as [|[] tr IH]; simpl; by rewrite ?IH. Qed.

Lemma count_sleeps_app tr events :
  count_sleeps (tr ++ events) = (count_sleeps tr + count_sleeps events)%nat.
Proof. induction tr as [|[] tr IH]; simpl; by rewrite ?IH. Qed.

(** The polls of a step end with more logs than expected, apply nothing,
    make one fetch more than they sleep and stay in the directory. *)
Lemma polled_facts expected tr events result :
  polled host self expected tr events result ->
  (expected < length result)%nat
  /\ applied_steps events = []
  /\ count_runs events = S (count_sleeps events)
  /\ Forall (in_directory wd) events.
Proof.
  induction 1 as [tr logs Hcode Hlogs Hmore
                 |tr logs events result Hcode Hlogs Hless _ (Hlen & Happ & Hcount & Hdir)].
  - repeat split; [done|]. by repeat constructor.
  - repeat split; [done | done | simpl; by rewrite Hcount |].
    by repeat constructor.
Qed.

Lemma driven_facts k todo tr last events result :
  driven host self k todo tr last events result ->
  ((todo = [] /\ result = last) \/ (k + length todo <= length result)%nat)
  /\ applied_steps events = todo
  /\ count_runs events = (count_sleeps events + length todo)%nat
  /\ Forall (in_directory wd) events.
Proof.
  induction 1 as [k tr last
                 |k step todo tr last polls logs events result Hpolled _
                    (Hlen & Happ & Hcount & Hdir)].
  - repeat split; [by left | constructor].
  - apply polled_facts in Hpolled as (Hmore & Hnone & Hruns & Hin).
    split; [|split; [|split]].
    + right. simpl. destruct Hlen as [[-> ->]|Hlen]; simpl; lia.
    + simpl. by rewrite applied_steps_app, Hnone, Happ.
    + simpl. rewrite count_runs_app, count_sleeps_app, Hruns, Hcount. lia.
    + constructor; [done|]. by apply Forall_app.
Qed.

(** X9: without any update step [update] returns the empty list at once,
    whatever the checker would answer and however few iterations its loop
    is given, with no command run; and whenever [update] returns, it
    returns at least as many logs as there are update steps. *)
Theorem update_returns_a_log_per_step fuel tr :
  (steps = [] -> Runner.update host fuel self tr = (Returns [], tr))
  /\ (forall result tr',
        Runner.update host fuel self tr = (Returns result, tr') ->
        (length steps <= length result)%nat).
Proof.
  split.
  - intros Hnone. rewrite update_unfold. fold steps. by rewrite Hnone.
  - intros result tr' H.
    apply update_sound in H as (events & -> & Hdriven).
    apply driven_facts in Hdriven as ([[Hnone ->]|Hlen] & _); [|exact Hlen].
    unfold steps. by rewrite Hnone.
Qed.

(** X10: a run of [update] that returns has applied every update step once,
    in the order of the specification and in the runner's working
    directory, and has fetched the update logs once per step and once more
    for every second it slept. *)
Theorem update_applies_each_step_once fuel tr result tr' :
  Runner.update host fuel self tr = (Returns result, tr') ->
  exists events,
    tr' = tr ++ events
    /\ applied_steps events = steps
    /\ count_runs events = (count_sleeps events + length steps)%nat
    /\ Forall (in_directory wd) events.
Proof.
  intros H. apply update_sound in H as (events & -> & Hdriven).
  apply driven_facts in Hdriven as (_ & Happ & Hcount & Hdir).
  by exists events.
Qed.

(** X11: the loop of [update] waits for logs, not for the profile command
    to work: when a fetch exits with a code other than 0, or prints what
    cannot be decoded, the loop ends on that fetch with its error, without
    sleeping or fetching again. *)
Theorem poll_fails_at_once fuel expected tr :
  (return_code (poll_output host self tr) <> 0 ->
   Runner.poll host (S fuel) self expected tr
   = (Raises (ProcessError (return_code (poll_output host self tr))),
      tr ++ [poll_event host self tr]))
  /\ (forall e,
        return_code (poll_output host self tr) = 0 ->
        json_loads_profile host incremental_updates
          (stdout (poll_output host self tr)) = Raise e ->
        Runner.poll host (S fuel) self expected tr
        = (Raises e, tr ++ [poll_event host self tr])).
Proof.
  rewrite poll_unfold. unfold Runner.run_profile. split.
  - intros Hcode. apply bind_of_raises, bind_of_raises.
    apply checked_run_unexpected.
    unfold Runner.default_expected_return_codes.
    rewrite elem_of_cons, elem_of_nil. unfold poll_output in Hcode. tauto.
  - intros e Hcode Hlogs. apply bind_of_raises.
    assert (Hin : return_code (poll_output host self tr)
                  ∈ Runner.default_expected_return_codes)
      by (rewrite Hcode; constructor).
    rewrite (bind_of_returns _ _ _ _ _ (checked_run_expected host tr _ _ _ Hin)).
    unfold lift. unfold poll_output in Hlogs. by rewrite Hlogs.
Qed.

End DriverFacts.

(** A runner without steps returns at once, even with no iteration allowed
    and a checker that would fail; against the slow server the three steps
    give three logs, each applied once, with six fetches for three steps
    and three sleeps. *)
Lemma update_returns_a_log_per_step_witness :
  Runner.update (Examples.constant_host 3 "Traceback") 0 MoreExamples.idle_runner []
  = (Returns [], [])
  /\ (length ["first"; "second"; "third"] <= length [(∅ : ProfileRecord); ∅; ∅])%nat.
Proof.
  split.
  - apply (proj1 (update_returns_a_log_per_step (Examples.constant_host 3 "Traceback")
                    MoreExamples.idle_runner 0 [])).
    reflexivity.
  - apply (proj2 (update_returns_a_log_per_step Examples.slow_server
                    Examples.example_runner 3 [])
             [∅; ∅; ∅] Examples.slow_trace).
    vm_compute. reflexivity.
Defined.

Lemma update_applies_each_step_once_witness :
  exists events,
    Examples.slow_trace = [] ++ events
    /\ applied_steps events = ["first"; "second"; "third"]
    /\ count_runs events = (count_sleeps events + 3)%nat
    /\ Forall (in_directory "/sandbox") events.
Proof.
  apply (update_applies_each_step_once Examples.slow_server Examples.example_runner
           3 [] [∅; ∅; ∅] Examples.slow_trace).
  vm_compute. reflexivity.
Defined.

(** The second fetch of the failing server exits with 3: the loop ends
    there. *)
Lemma poll_fails_at_once_witness :
  let after_first :=
    [ApplyUpdate "first" "/sandbox"; Examples.fetched "[]"; Sleep 1] in
  Runner.poll MoreExamples.failing_poll_server 3 Examples.example_runner 0 after_first
  = (Raises (ProcessError 3),
     after_first
     ++ [Run "/sandbox" Examples.update_logs_command [0]
             {| return_code := 3; stdout := EmptyString |}]).
Proof.
  intros after_first.
  apply (proj1 (poll_fails_at_once MoreExamples.failing_poll_server
                  Examples.example_runner 2 0 after_first)).
  vm_compute. discriminate.
Defined.

(** ** The two entry points *)

Section EntryPoints.

Context (host : Host).
Implicit Types (self : Runner.PyreRunner) (tr : list Event).

(** Leaving the [with] block of [_create_pyre_runner]. *)
Lemma create_pyre_runner_returns {X} environment specification
    (body : Runner.PyreRunner -> M X) tr (x : X) tr' :
  Runner._create_pyre_runner host environment specification body tr = (Returns x, tr') <->
  exists tr0,
    body (Runner.__init__ environment specification (sandbox host tr))
         (tr ++ [SandboxEnter (sandbox host tr)]) = (Returns x, tr0)
    /\ tr' = tr0 ++ [SandboxExit (sandbox host tr)].
Proof.
  unfold Runner._create_pyre_runner, Runner.activate_sandbox. split.
  - destruct (body _ _) as [[y| |] tr0]; intros [= <- <-]. by exists tr0.
  - intros (tr0 & -> & ->). reflexivity.
Qed.

Lemma create_pyre_runner_raises {X} environment specification
    (body : Runner.PyreRunner -> M X) tr e tr0 :
  body (Runner.__init__ environment specification (sandbox host tr))
       (tr ++ [SandboxEnter (sandbox host tr)]) = (Raises e, tr0) ->
  Runner._create_pyre_runner host environment specification body tr
  = (Raises e, tr0 ++ [SandboxExit (sandbox host tr)]).
Proof.
  intros H. unfold Runner._create_pyre_runner, Runner.activate_sandbox. by rewrite H.
Qed.

(** The record [run_start] returns is the decoded output of its second
    command. *)
Lemma run_start_record self tr record tr' :
  Runner.run_start host self tr = (Returns record, tr') ->
  let wd := Runner._working_directory self in
  let started := run_event host tr wd (Runner.start_command self) [0] in
  json_loads_profile host cold_start_phases
    (stdout (process host (tr ++ [started]) wd
               (Runner.profile_command self cold_start_phases)))
  = Ok record.
Proof.
  intros H wd started. unfold Runner.run_start, Runner.run_profile in H.
  apply bind_returns in H as (output & tr1 & Hrun & H).
  apply checked_run_returns in Hrun as (_ & _ & ->).
  apply bind_returns in H as (profiled & tr2 & Hrun & H).
  apply checked_run_returns in Hrun as (-> & _ & ->).
  by apply lift_returns in H as [H _].
Qed.

Lemma benchmark_returns fuel self tr profiles tr' :
  Runner.benchmark host fuel self tr = (Returns profiles, tr') ->
  exists tr1 tr2 tr3 incremental,
    Runner.run_start host self tr = (Returns (fst profiles), tr1)
    /\ Runner.update host fuel self tr1 = (Returns (snd profiles), tr2)
    /\ Runner.run_incremental host self tr2 = (Returns incremental, tr3)
    /\ Runner.run_stop host self tr3 = (Returns tt, tr').
Proof.
  unfold Runner.benchmark. intros H.
  apply bind_returns in H as (cold & tr1 & Hstart & H).
  apply bind_returns in H as (logs & tr2 & Hupdate & H).
  apply bind_returns in H as (inc & tr3 & Hinc & H).
  apply bind_returns in H as ([] & tr4 & Hstop & H).
  injection H as <- <-. by exists tr1, tr2, tr3, inc.
Qed.

Lemma benchmark_of_steps fuel self tr cold tr1 logs tr2 incremental tr3 tr4 :
  Runner.run_start host self tr = (Returns cold, tr1) ->
  Runner.update host fuel self tr1 = (Returns logs, tr2) ->
  Runner.run_incremental host self tr2 = (Returns incremental, tr3) ->
  Runner.run_stop host self tr3 = (Returns tt, tr4) ->
  Runner.benchmark host fuel self tr = (Returns (cold, logs), tr4).
Proof.
  intros Hstart Hupdate Hinc Hstop. unfold Runner.benchmark.
  rewrite (bind_of_returns _ _ _ _ _ Hstart).
  rewrite (bind_of_returns _ _ _ _ _ Hupdate).
  rewrite (bind_of_returns _ _ _ _ _ Hinc).
  by rewrite (bind_of_returns _ _ _ _ _ Hstop).
Qed.

(** X12: a run of [benchmark_server] that returns enters the sandbox,
    starts the server and reads its cold-start record, drives the updates,
    runs the incremental check, stops the server and leaves the sandbox,
    with no event between the stop and the release; the logs returned are
    the cold-start record and the update logs of this run. *)
Theorem benchmark_server_protocol fuel environment specification tr logs tr' :
  Runner.benchmark_server host fuel environment specification tr = (Returns logs, tr') ->
  benchmark_protocol host environment specification tr logs tr'.
Proof.
  intros H. unfold benchmark_protocol.
  set (root := sandbox host tr).
  set (self := Runner.__init__ environment specification root).
  unfold Runner.benchmark_server in H.
  apply bind_returns in H as (profiles & tr5 & Hwith & H).
  injection H as <- <-.
  apply create_pyre_runner_returns in Hwith as (tr4 & Hblock & ->).
  fold root self in Hblock.
  apply benchmark_returns in Hblock as (tr1 & tr2 & tr3 & inc & Hstart & Hupdate & Hinc & Hstop).
  pose proof (run_start_record _ _ _ _ Hstart) as Hcold. cbn zeta in Hcold.
  apply run_start_returns in Hstart. cbn zeta in Hstart. subst tr1.
  apply update_sound in Hupdate as (updated & -> & Hdriven).
  apply run_incremental_returns in Hinc. subst tr3.
  apply run_stop_returns in Hstop. subst tr4.
  unfold run_event in *. cbn [Runner._working_directory Runner.__init__ self] in *.
  rewrite <- !app_assoc in *. simpl in *.
  do 5 eexists. split; [reflexivity|]. split; [exact Hdriven|]. exact Hcold.
Qed.

(** X13: the benchmark is the comparison without its timed full check:
    when [compare_server_to_full] returns, [benchmark_server] run in the
    same situation returns the profile logs of the comparison, after the
    same events up to the stop of the server. *)
Theorem benchmark_agrees_with_comparison fuel environment specification tr
    comparison tr' :
  Runner.compare_server_to_full host fuel environment specification tr
  = (Returns comparison, tr') ->
  exists common start_time full stop_time,
    let root := sandbox host tr in
    let self := Runner.__init__ environment specification root in
    tr' = common ++ [Time start_time;
                     Run root (Runner.check_command self) [0; 1] full;
                     Time stop_time;
                     SandboxExit root]
    /\ Runner.benchmark_server host fuel environment specification tr
       = (Returns (ResultComparison.profile_logs comparison),
          common ++ [SandboxExit root]).
Proof.
  intros H.
  apply compare_returns in H as (measured & tr0 & Hmeasure & -> & ->).
  apply measure_returns in Hmeasure
    as (tr1 & tr2 & tr3 & tr4 & tr6 & Hstart & Hupdate & Hinc & Hstop & Hcheck & _ & ->).
  exists tr4. do 3 eexists. cbn zeta. split.
  - apply run_check_returns in Hcheck. subst tr6.
    unfold run_event. cbn [Runner._working_directory Runner.__init__].
    rewrite <- !app_assoc. reflexivity.
  - unfold Runner.benchmark_server.
    pose proof (benchmark_of_steps _ _ _ _ _ _ _ _ _ _ Hstart Hupdate Hinc Hstop) as Hblock.
    assert (Hwith : Runner._create_pyre_runner host environment specification
                      (Runner.benchmark host fuel) tr
                    = (Returns (Runner.cold_start_log measured,
                                Runner.incremental_update_logs measured),
                       tr4 ++ [SandboxExit (sandbox host tr)])).
    { apply create_pyre_runner_returns. by exists tr4. }
    by rewrite (bind_of_returns _ _ _ _ _ Hwith).
Qed.

End EntryPoints.

Section Aborts.

Context (host : Host).
Implicit Types (self : Runner.PyreRunner) (tr : list Event).

Lemma run_start_fails self tr :
  return_code (process host tr (Runner._working_directory self)
                 (Runner.start_command self)) <> 0 ->
  Runner.run_start host self tr
  = (Raises (ProcessError
               (return_code (process host tr (Runner._working_directory self)
                               (Runner.start_command self)))),
     tr ++ [run_event host tr (Runner._working_directory self)
              (Runner.start_command self) [0]]).
Proof.
  intros Hcode. unfold Runner.run_start.
  apply bind_of_raises, checked_run_unexpected.
  unfold Runner.default_expected_return_codes.
  rewrite elem_of_cons, elem_of_nil. tauto.
Qed.

Lemma run_incremental_fails self tr :
  let code := return_code (process host tr (Runner._working_directory self)
                             (Runner.incremental_command self)) in
  code <> 0 -> code <> 1 ->
  Runner.run_incremental host self tr
  = (Raises (ProcessError code),
     tr ++ [run_event host tr (Runner._working_directory self)
              (Runner.incremental_command self) [0; 1]]).
Proof.
  intros code H0 H1. unfold Runner.run_incremental.
  apply bind_of_raises, checked_run_unexpected.
  fold code. rewrite !elem_of_cons, elem_of_nil. tauto.
Qed.

(** X14: when the restart of the server exits with a code other than 0,
    both entry points raise the fatal process error at once: the sandbox
    is entered, the one command is run, the sandbox is left, and no update
    is applied nor any other command issued. *)
Theorem failed_start_ends_the_run fuel environment specification tr :
  let root := sandbox host tr in
  let self := Runner.__init__ environment specification root in
  let started := process host (tr ++ [SandboxEnter root]) root (Runner.start_command self) in
  let tr' := tr ++ [SandboxEnter root;
                    Run root (Runner.start_command self) [0] started;
                    SandboxExit root] in
  return_code started <> 0 ->
  Runner.compare_server_to_full host fuel environment specification tr
  = (Raises (ProcessError (return_code started)), tr')
  /\ Runner.benchmark_server host fuel environment specification tr
     = (Raises (ProcessError (return_code started)), tr').
Proof.
  intros root self started tr' Hcode.
  pose proof (run_start_fails self (tr ++ [SandboxEnter root]) Hcode) as Hstart.
  unfold run_event in Hstart.
  cbn [Runner._working_directory Runner.__init__ self] in Hstart.
  fold self started in Hstart.
  assert (Htrace : (tr ++ [SandboxEnter root])
                   ++ [Run root (Runner.start_command self) [0] started]
                   ++ [SandboxExit root] = tr')
    by (unfold tr'; by rewrite <- app_assoc).
  split.
  - unfold Runner.compare_server_to_full. apply bind_of_raises.
    rewrite <- Htrace, app_assoc. apply create_pyre_runner_raises.
    fold root self. unfold Runner.measure. by apply bind_of_raises.
  - unfold Runner.benchmark_server. apply bind_of_raises.
    rewrite <- Htrace, app_assoc. apply create_pyre_runner_raises.
    fold root self. unfold Runner.benchmark. by apply bind_of_raises.
Qed.

(** X15: when the incremental check exits with a code other than 0 and 1,
    both entry points raise the fatal process error and leave the sandbox
    right after that command: the stop command is not issued, so the
    server that was started is left running. *)
Theorem failed_incremental_skips_stop fuel environment specification tr
    cold tr1 logs tr2 :
  let root := sandbox host tr in
  let self := Runner.__init__ environment specification root in
  let crashed := process host tr2 root (Runner.incremental_command self) in
  let tr' := tr2 ++ [Run root (Runner.incremental_command self) [0; 1] crashed;
                     SandboxExit root] in
  Runner.run_start host self (tr ++ [SandboxEnter root]) = (Returns cold, tr1) ->
  Runner.update host fuel self tr1 = (Returns logs, tr2) ->
  return_code crashed <> 0 -> return_code crashed <> 1 ->
  Runner.compare_server_to_full host fuel environment specification tr
  = (Raises (ProcessError (return_code crashed)), tr')
  /\ Runner.benchmark_server host fuel environment specification tr
     = (Raises (ProcessError (return_code crashed)), tr').
Proof.
  intros root self crashed tr' Hstart Hupdate H0 H1.
  pose proof (run_incremental_fails self tr2 H0 H1) as Hinc.
  unfold run_event in Hinc.
  cbn [Runner._working_directory Runner.__init__ self] in Hinc.
  fold self crashed in Hinc.
  assert (Htrace : (tr2 ++ [Run root (Runner.incremental_command self) [0; 1] crashed])
                   ++ [SandboxExit root] = tr')
    by (unfold tr'; by rewrite <- app_assoc).
  split.
  - unfold Runner.compare_server_to_full. apply bind_of_raises.
    rewrite <- Htrace. apply create_pyre_runner_raises.
    fold root self. unfold Runner.measure.
    rewrite (bind_of_returns _ _ _ _ _ Hstart).
    rewrite (bind_of_returns _ _ _ _ _ Hupdate).
    by apply bind_of_raises.
  - unfold Runner.benchmark_server. apply bind_of_raises.
    rewrite <- Htrace. apply create_pyre_runner_raises.
    fold root self. unfold Runner.benchmark.
    rewrite (bind_of_returns _ _ _ _ _ Hstart).
    rewrite (bind_of_returns _ _ _ _ _ Hupdate).
    by apply bind_of_raises.
Qed.

End Aborts.

Section Directory.

Context (host : Host).
Implicit Types (self : Runner.PyreRunner) (tr : list Event).

(** The events of the steps shared by the two entry points stay in the
    runner's working directory. *)
Lemma steps_in_directory fuel self tr cold tr1 logs tr2 incremental tr3 tr4 :
  Runner.run_start host self tr = (Returns cold, tr1) ->
  Runner.update host fuel self tr1 = (Returns logs, tr2) ->
  Runner.run_incremental host self tr2 = (Returns incremental, tr3) ->
  Runner.run_stop host self tr3 = (Returns tt, tr4) ->
  exists events,
    tr4 = tr ++ events
    /\ Forall (in_directory (Runner._working_directory self)) events.
Proof.
  intros Hstart Hupdate Hinc Hstop.
  apply run_start_returns in Hstart. cbn zeta in Hstart. subst tr1.
  apply update_sound in Hupdate as (updated & -> & Hdriven).
  apply driven_facts in Hdriven as (_ & _ & _ & Hdir).
  apply run_incremental_returns in Hinc. subst tr3.
  apply run_stop_returns in Hstop. subst tr4.
  eexists. split; [by rewrite <- !app_assoc|].
  repeat (apply Forall_app; split); try exact Hdir; by repeat constructor.
Qed.

(** X16: everything a returning run of either entry point does happens in
    the sandbox that the old state's activation yielded: the directory
    entered and left, the working directory of every command and the
    directory every update step is applied to are that one directory. *)
Theorem runs_stay_in_the_sandbox fuel environment specification tr :
  (forall comparison tr',
      Runner.compare_server_to_full host fuel environment specification tr
      = (Returns comparison, tr') ->
      exists events, tr' = tr ++ events /\ Forall (in_directory (sandbox host tr)) events)
  /\ (forall logs tr',
        Runner.benchmark_server host fuel environment specification tr
        = (Returns logs, tr') ->
        exists events, tr' = tr ++ events /\ Forall (in_directory (sandbox host tr)) events).
Proof.
  split.
  - intros comparison tr' H.
    apply compare_returns in H as (measured & tr0 & Hmeasure & -> & ->).
    apply measure_returns in Hmeasure
      as (tr1 & tr2 & tr3 & tr4 & tr6 & Hstart & Hupdate & Hinc & Hstop & Hcheck & _ & ->).
    destruct (steps_in_directory _ _ _ _ _ _ _ _ _ _ Hstart Hupdate Hinc Hstop)
      as (events & -> & Hdir).
    apply run_check_returns in Hcheck. subst tr6.
    eexists. split; [by rewrite <- !app_assoc|].
    constructor; [done|].
    repeat (apply Forall_app; split); try exact Hdir; by repeat constructor.
  - intros logs tr' H. unfold Runner.benchmark_server in H.
    apply bind_returns in H as (profiles & tr5 & Hwith & H).
    injection H as <- <-.
    apply create_pyre_runner_returns in Hwith as (tr4 & Hblock & ->).
    apply benchmark_returns in Hblock
      as (tr1 & tr2 & tr3 & inc & Hstart & Hupdate & Hinc & Hstop).
    destruct (steps_in_directory _ _ _ _ _ _ _ _ _ _ Hstart Hupdate Hinc Hstop)
      as (events & -> & Hdir).
    eexists. split; [by rewrite <- !app_assoc|].
    constructor; [done|].
    repeat (apply Forall_app; split); try exact Hdir; by repeat constructor.
Qed.

End Directory.

(** The benchmark against the slow server. *)
Lemma benchmark_server_protocol_witness :
  exists logs tr',
    Runner.benchmark_server Examples.slow_server 3
      Examples.example_environment Examples.example_specification []
    = (Returns logs, tr')
    /\ ProfileLogs.incremental_update_logs logs = [∅; ∅; ∅]
    /\ benchmark_protocol Examples.slow_server Examples.example_environment
         Examples.example_specification [] logs tr'.
Proof.
  eexists. eexists. split; [vm_compute; reflexivity|].
  split; [reflexivity|].
  apply (benchmark_server_protocol Examples.slow_server 3).
  vm_compute. reflexivity.
Defined.

(** The comparison against the server whose checks differ, and the
    benchmark against the same server. *)
Lemma benchmark_agrees_with_comparison_witness :
  exists comparison tr' common start_time full stop_time,
    Runner.compare_server_to_full Examples.differing_server 3
      Examples.example_environment Examples.example_specification []
    = (Returns comparison, tr')
    /\ tr' = common ++ [Time start_time;
                        Run "/sandbox" (Runner.check_command Examples.example_runner)
                            [0; 1] full;
                        Time stop_time;
                        SandboxExit "/sandbox"]
    /\ Runner.benchmark_server Examples.differing_server 3
         Examples.example_environment Examples.example_specification []
       = (Returns (ResultComparison.profile_logs comparison),
          common ++ [SandboxExit "/sandbox"]).
Proof.
  eassert (H : Runner.compare_server_to_full Examples.differing_server 3
                 Examples.example_environment Examples.example_specification []
               = (Returns _, _)) by (vm_compute; reflexivity).
  destruct (benchmark_agrees_with_comparison Examples.differing_server 3
              Examples.example_environment Examples.example_specification [] _ _ H)
    as (common & start_time & full & stop_time & Htrace & Hbench).
  do 2 eexists. exists common, start_time, full, stop_time.
  split; [exact H|]. split; [exact Htrace | exact Hbench].
Defined.

(** The server that cannot be restarted, and the server whose incremental
    check crashes. *)
Lemma failed_start_ends_the_run_witness :
  Runner.compare_server_to_full MoreExamples.unstartable_server 3
    Examples.example_environment Examples.example_specification []
  = (Raises (ProcessError 1),
     [SandboxEnter "/sandbox";
      Run "/sandbox" (Runner.start_command Examples.example_runner) [0]
          {| return_code := 1; stdout := EmptyString |};
      SandboxExit "/sandbox"])
  /\ Runner.benchmark_server MoreExamples.unstartable_server 3
       Examples.example_environment Examples.example_specification []
     = (Raises (ProcessError 1),
        [SandboxEnter "/sandbox";
         Run "/sandbox" (Runner.start_command Examples.example_runner) [0]
             {| return_code := 1; stdout := EmptyString |};
         SandboxExit "/sandbox"]).
Proof.
  apply (failed_start_ends_the_run MoreExamples.unstartable_server 3
           Examples.example_environment Examples.example_specification []).
  vm_compute. discriminate.
Defined.

Lemma failed_incremental_skips_stop_witness :
  exists before,
    Runner.compare_server_to_full MoreExamples.crashing_server 3
      Examples.example_environment Examples.example_specification []
    = (Raises (ProcessError 2),
       before ++ [Run "/sandbox" (Runner.incremental_command Examples.example_runner)
                      [0; 1] {| return_code := 2; stdout := "Traceback" |};
                  SandboxExit "/sandbox"])
    /\ Runner.benchmark_server MoreExamples.crashing_server 3
         Examples.example_environment Examples.example_specification []
       = (Raises (ProcessError 2),
          before ++ [Run "/sandbox" (Runner.incremental_command Examples.example_runner)
                         [0; 1] {| return_code := 2; stdout := "Traceback" |};
                     SandboxExit "/sandbox"]).
Proof.
  eexists.
  eapply (failed_incremental_skips_stop MoreExamples.crashing_server 3
            Examples.example_environment Examples.example_specification []).
  - vm_compute. reflexivity.
  - vm_compute. reflexivity.
  - vm_compute. discriminate.
  - vm_compute. discriminate.
Defined.

Lemma runs_stay_in_the_sandbox_witness :
  exists comparison tr' events,
    Runner.compare_server_to_full Examples.differing_server 3
      Examples.example_environment Examples.example_specification []
    = (Returns comparison, tr')
    /\ tr' = [] ++ events
    /\ Forall (in_directory "/sandbox") events.
Proof.
  eassert (H : Runner.compare_server_to_full Examples.differing_server 3
                 Examples.example_environment Examples.example_specification []
               = (Returns _, _)) by (vm_compute; reflexivity).
  destruct (proj1 (runs_stay_in_the_sandbox Examples.differing_server 3
                     Examples.example_environment Examples.example_specification [])
              _ _ H) as (events & Htrace & Hdir).
  do 2 eexists. exists events. split; [exact H|]. split; [exact Htrace | exact Hdir].
Defined.

(** ** The verdict and its JSON *)

Section VerdictJson.

(** X17: the JSON of a verdict tells what was compared. When the two lists
    of errors are [==], the key ["discrepancy"] is bound to the string
    ["none"]; when they are not, it is bound to a dict from which both
    lists can be read back with [PyreError.from_json]. In both cases
    ["full_check_time"] is the time measured. *)
Theorem verdict_to_json (measured : Runner.Measured) (total : Z) :
  ProfileLogs.total_of_totals
    (ProfileLogs.make (Runner.incremental_update_logs measured)
                      (Runner.cold_start_log measured)) = Ok total ->
  exists result,
    ResultComparison.to_json (Runner.verdict measured) false = Ok result
    /\ result !! "full_check_time" = Some (JInt (Runner.full_check_time measured))
    /\ if errors_eq (Runner.incremental_check_output measured)
                    (Runner.full_check_output measured)
       then result !! "discrepancy" = Some (JString "none")
       else exists arrays full_items incremental_items,
           result !! "discrepancy" = Some (JObject arrays)
           /\ arrays !! "full_check_output" = Some (JArray full_items)
           /\ arrays !! "incremental_check_output" = Some (JArray incremental_items)
           /\ comprehension PyreError.from_json full_items
              = Ok (Runner.full_check_output measured)
           /\ comprehension PyreError.from_json incremental_items
              = Ok (Runner.incremental_check_output measured).
Proof.
  intros Htotal. unfold ResultComparison.to_json, Runner.verdict.
  cbn [ResultComparison.profile_logs ResultComparison.full_check_time
       ResultComparison.discrepancy].
  rewrite Htotal. eexists. split; [reflexivity|].
  split; [by simplify_map_eq|].
  destruct (errors_eq _ _); [by simplify_map_eq|].
  eexists. exists (PyreError.asdict <$> Runner.full_check_output measured),
                  (PyreError.asdict <$> Runner.incremental_check_output measured).
  split; [by simplify_map_eq|].
  unfold InconsistentOutput.to_json.
  cbn [InconsistentOutput.full_check_output InconsistentOutput.incremental_check_output].
  split; [by simplify_map_eq|]. split; [by simplify_map_eq|].
  split; apply comprehension_asdict.
Qed.

Lemma verdict_to_json_witness :
  let measured :=
    {| Runner.cold_start_log := ∅;
       Runner.incremental_update_logs := [ {["total" := 3]}; {["total" := 4]} ];
       Runner.incremental_check_output := [Examples.error_a];
       Runner.full_check_output := [Examples.error_a; Examples.error_b];
       Runner.full_check_time := 250 |} in
  exists result arrays full_items incremental_items,
    ResultComparison.to_json (Runner.verdict measured) false = Ok result
    /\ result !! "full_check_time" = Some (JInt 250)
    /\ result !! "discrepancy" = Some (JObject arrays)
    /\ arrays !! "full_check_output" = Some (JArray full_items)
    /\ arrays !! "incremental_check_output" = Some (JArray incremental_items)
    /\ comprehension PyreError.from_json full_items
       = Ok [Examples.error_a; Examples.error_b]
    /\ comprehension PyreError.from_json incremental_items = Ok [Examples.error_a].
Proof.
  intros measured.
  destruct (verdict_to_json measured 7 eq_refl)
    as (result & Hjson & Htime & arrays & full_items & incremental_items & H).
  exists result, arrays, full_items, incremental_items.
  split; [exact Hjson|]. split; [exact Htime | exact H].
Defined.

End VerdictJson.

(** ** Waiting without end *)

Section Waiting.

Context (host : Host) (self : Runner.PyreRunner).

(** X18: [update] has no timeout. When there is an update step and the
    profiling endpoint keeps answering, with exit code 0, a list of logs
    no longer than the one the first step waits for, [update] does not
    return and does not raise: whatever number of iterations its loop is
    given, it uses them all. *)
Theorem update_waits_without_end (tr : list Event) :
  update_steps (new_state (Runner._specification self)) <> [] ->
  (forall tr', return_code (poll_output host self tr') = 0
               /\ exists logs,
                    json_loads_profile host incremental_updates
                      (stdout (poll_output host self tr')) = Ok logs
                    /\ (length logs <= 0)%nat) ->
  forall fuel, exists tr', Runner.update host fuel self tr = (Hangs, tr').
Proof.
  intros Hsteps Hstuck fuel. rewrite update_unfold.
  destruct (update_steps (new_state (Runner._specification self)))
    as [|step steps]; [done|].
  unfold enumerate. rewrite enumerate_from_cons, for_each_cons.
  destruct (poll_never_ends host self 0 Hstuck fuel
              (tr ++ [ApplyUpdate step (Runner._working_directory self)]))
    as [tr' Hpoll].
  exists tr'. rewrite bind_unfold. unfold update_body.
  rewrite bind_unfold. cbn [emit]. by rewrite Hpoll.
Qed.

End Waiting.

(** A server that never logs an update keeps the driver waiting. *)
Lemma update_waits_without_end_witness :
  exists tr',
    Runner.update (Examples.server [] Examples.quiet Examples.quiet) 1000
      Examples.example_runner [] = (Hangs, tr').
Proof.
  refine (update_waits_without_end (Examples.server [] Examples.quiet Examples.quiet)
            Examples.example_runner [] _ _ 1000%nat).
  - discriminate.
  - intros tr'. unfold poll_output. cbn [process Examples.server].
    unfold Examples.server_process.
    rewrite decide_True by reflexivity.
    cbn [return_code stdout]. split; [reflexivity|].
    exists []. split; [|done].
    by destruct (times_run _ tr').
Defined.
